(** * TempCycleDMA: the acquisition state machine and the cyclic executor

    A shallow embedding of [tarefa1_temp.c] (temperature acquisition by
    ADC + DMA in blocks of 10000 samples) and of [main.c] (the five timer
    callbacks of the cyclic executor), with the properties of the design
    document stated and proved over it.

    - C [float] is IEEE 754 binary32, one correctly rounded operation per C
      operator (round to nearest, ties to even), written with the
      parameterised operations of [SpecFloat] at precision 24.
    - [uint32_t], [uint64_t] and [int64_t] are [Z] with the wrap-around
      written out.
    - File-scope and function-scope [static] variables are fields of a
      state record; every function takes the state and returns the new one.
    - Calls into the Pico SDK and into the other modules of the firmware are
      recorded in a trace of calls; what an external call returns (the
      clock, the trend classifier) is an input of the function. *)

From Stdlib Require Import ZArith List Bool Lia.
From Stdlib Require Import Floats.SpecFloat.
Import ListNotations.
Open Scope Z_scope.

(** ** Binary32 arithmetic *)

Module F32.

Definition prec : Z := 24.
Definition emax : Z := 128.

Definition float : Type := spec_float.

(** Conversion of a C integer to [float]. *)
Definition of_int (n : Z) : float := binary_normalize prec emax n 0 false.

Definition add : float -> float -> float := SFadd prec emax.
Definition sub : float -> float -> float := SFsub prec emax.
Definition mul : float -> float -> float := SFmul prec emax.
Definition div : float -> float -> float := SFdiv prec emax.
Definition ltb : float -> float -> bool := SFltb.

(** [0.0f] *)
Definition zero : float := S754_zero false.
(** [1.0f] *)
Definition one : float := S754_finite false 8388608 (-23).

(** Number of significant bits a value carries (0 for zeros, infinities
    and NaN). *)
Definition sig_bits (x : float) : Z :=
  match x with
  | S754_finite _ m _ => Zpos (digits2_pos m)
  | _ => 0
  end.

End F32.

(** ** Binary64 arithmetic (C [double]), used only to state what a wider
    accumulator would compute *)

Module F64.

Definition prec : Z := 53.
Definition emax : Z := 1024.

Definition add : spec_float -> spec_float -> spec_float := SFadd prec emax.

(** The conversion [(double) x] of a [float]: exact, renormalised to a
    53-bit significand. *)
Definition of_float (x : F32.float) : spec_float :=
  match x with
  | S754_finite s m e => binary_normalize prec emax (cond_Zopp s (Zpos m)) e s
  | _ => x
  end.

End F64.

(** ** [tarefa1_temp.c] *)

Module Tarefa1.

Definition BLOCO_AMOSTRAS : Z := 10000.
Definition DURACAO_AMOSTRAGEM_US : Z := 500000.

(** The float literals of [convert_to_celsius], as the binary32 values
    nearest to the decimals. *)
Definition lit_3_3 : F32.float := S754_finite false 13841203 (-22).
Definition lit_0_706 : F32.float := S754_finite false 11844714 (-24).
Definition lit_0_001721 : F32.float := S754_finite false 14783277 (-33).
Definition lit_27_0 : F32.float := S754_finite false 14155776 (-19).

(** [const float conv = 3.3f / (1 << 12);] *)
Definition conv : F32.float := F32.div lit_3_3 (F32.of_int (Z.shiftl 1 12)).

(** [static float convert_to_celsius(uint16_t raw)] *)
Definition convert_to_celsius (raw : Z) : F32.float :=
  let voltage := F32.mul (F32.of_int raw) conv in
  F32.sub lit_27_0 (F32.div (F32.sub voltage lit_0_706) lit_0_001721).

(** Calls into the ADC and DMA drivers of the SDK. *)
Inductive hw_call : Type :=
| adc_select_input (input : Z)
| adc_fifo_drain
| adc_run (run : bool)
| adc_fifo_setup (en dreq_en : bool) (dreq_thresh : Z)
                 (err_in_fifo byte_shift : bool)
| dma_channel_configure (chan : Z) (cfg : Z) (count : Z) (trigger : bool).

Inductive estado_tarefa1_t : Type :=
| ESTADO_PARADO
| ESTADO_INICIANDO
| ESTADO_AGUARDANDO_DMA.

(** The statics of the file, the flag [dma_temp_done] it shares with the
    interrupt handler, and the calls made so far (oldest first). *)
Record state : Type := mkState {
  estado_t1 : estado_tarefa1_t;
  inicio_amostragem : Z;
  soma_temp : F32.float;
  total_amostras : Z;
  media_temp : F32.float;
  buffer_temp : list Z;
  dma_temp_done : bool;
  hw : list hw_call
}.

(** The state at program start; [dma_temp_done] is defined in another
    file, so its initial value is left open. *)
Definition init (done : bool) : state :=
  {| estado_t1 := ESTADO_PARADO;
     inicio_amostragem := 0;
     soma_temp := F32.zero;
     total_amostras := 0;
     media_temp := F32.zero;
     buffer_temp := repeat 0 (Z.to_nat BLOCO_AMOSTRAS);
     dma_temp_done := done;
     hw := [] |}.

(** [absolute_time_diff_us(from, to)] of the SDK: the difference of two
    64-bit microsecond counters, read as [int64_t]. *)
Definition absolute_time_diff_us (from to : Z) : Z :=
  let d := (to - from) mod 2 ^ 64 in
  if d <? 2 ^ 63 then d else d - 2 ^ 64.

(** [static void iniciar_dma_temp(buffer, cfg, dma_chan)] *)
Definition iniciar_dma_temp (cfg dma_chan : Z) (st : state) : state :=
  {| estado_t1 := estado_t1 st;
     inicio_amostragem := inicio_amostragem st;
     soma_temp := soma_temp st;
     total_amostras := total_amostras st;
     media_temp := media_temp st;
     buffer_temp := buffer_temp st;
     dma_temp_done := dma_temp_done st;
     hw := hw st ++ [ adc_select_input 4; adc_fifo_drain; adc_run false;
                      adc_fifo_setup true true 1 false false; adc_run true;
                      dma_channel_configure dma_chan cfg BLOCO_AMOSTRAS true ] |}.

(** The loop
    [for (int i = 0; i < BLOCO_AMOSTRAS; i++) soma_temp += convert_to_celsius(buffer_temp[i]);]
    with [n] iterations left and the index at [i]. *)
Fixpoint soma_bloco (buf : list Z) (n : nat) (i : Z) (soma : F32.float)
  : F32.float :=
  match n with
  | O => soma
  | S n' =>
      soma_bloco buf n' (i + 1)
        (F32.add soma (convert_to_celsius (nth (Z.to_nat i) buf 0)))
  end.

(** [bool tarefa1_obter_media_temp(dma_channel_config* cfg_temp, int dma_chan)];
    [now] is what [get_absolute_time()] returns during the call. *)
Definition tarefa1_obter_media_temp (cfg_temp dma_chan : Z) (now : Z)
    (st : state) : state * bool :=
  match estado_t1 st with
  | ESTADO_PARADO =>
      ({| estado_t1 := ESTADO_INICIANDO;
          inicio_amostragem := now;
          soma_temp := F32.zero;
          total_amostras := 0;
          media_temp := media_temp st;
          buffer_temp := buffer_temp st;
          dma_temp_done := dma_temp_done st;
          hw := hw st |}, false)
  | ESTADO_INICIANDO =>
      let st1 :=
        iniciar_dma_temp cfg_temp dma_chan
          {| estado_t1 := estado_t1 st;
             inicio_amostragem := inicio_amostragem st;
             soma_temp := soma_temp st;
             total_amostras := total_amostras st;
             media_temp := media_temp st;
             buffer_temp := buffer_temp st;
             dma_temp_done := false;
             hw := hw st |} in
      ({| estado_t1 := ESTADO_AGUARDANDO_DMA;
          inicio_amostragem := inicio_amostragem st1;
          soma_temp := soma_temp st1;
          total_amostras := total_amostras st1;
          media_temp := media_temp st1;
          buffer_temp := buffer_temp st1;
          dma_temp_done := dma_temp_done st1;
          hw := hw st1 |}, false)
  | ESTADO_AGUARDANDO_DMA =>
      if dma_temp_done st then
        let soma := soma_bloco (buffer_temp st) (Z.to_nat BLOCO_AMOSTRAS) 0
                      (soma_temp st) in
        let total := (total_amostras st + BLOCO_AMOSTRAS) mod 2 ^ 32 in
        if absolute_time_diff_us (inicio_amostragem st) now
             >=? DURACAO_AMOSTRAGEM_US then
          ({| estado_t1 := ESTADO_PARADO;
              inicio_amostragem := inicio_amostragem st;
              soma_temp := soma;
              total_amostras := total;
              media_temp := F32.div soma (F32.of_int total);
              buffer_temp := buffer_temp st;
              dma_temp_done := dma_temp_done st;
              hw := hw st ++ [adc_run false] |}, true)
        else
          ({| estado_t1 := ESTADO_INICIANDO;
              inicio_amostragem := inicio_amostragem st;
              soma_temp := soma;
              total_amostras := total;
              media_temp := media_temp st;
              buffer_temp := buffer_temp st;
              dma_temp_done := dma_temp_done st;
              hw := hw st ++ [adc_run false] |}, false)
      else (st, false)
  end.

(** [float tarefa1_termina()] *)
Definition tarefa1_termina (st : state) : F32.float := media_temp st.

(** *** Executions of the state machine *)

(** Modelled from the spec: the completion interrupt of the transfer
    engine ([irq_handlers.c] is not part of the sources). It raises
    [dma_temp_done] once the engine has filled [buffer_temp]. *)
Definition irq_dma (buf : list Z) (st : state) : state :=
  {| estado_t1 := estado_t1 st;
     inicio_amostragem := inicio_amostragem st;
     soma_temp := soma_temp st;
     total_amostras := total_amostras st;
     media_temp := media_temp st;
     buffer_temp := buf;
     dma_temp_done := true;
     hw := hw st |}.

(** One invocation by the scheduler: the clock value at the invocation and
    the block delivered by the interrupt since the previous invocation, if
    any. *)
Record entrada : Type := mkEntrada {
  now : Z;
  irq : option (list Z)
}.

Definition antes (e : entrada) (st : state) : state :=
  match irq e with
  | Some buf => irq_dma buf st
  | None => st
  end.

Definition tick (cfg_temp dma_chan : Z) (st : state) (e : entrada)
  : state * bool :=
  tarefa1_obter_media_temp cfg_temp dma_chan (now e) (antes e st).

(** The state after a sequence of invocations and what each returned. *)
Fixpoint run (cfg_temp dma_chan : Z) (st : state) (es : list entrada)
  : state * list bool :=
  match es with
  | [] => (st, [])
  | e :: es' =>
      let '(st1, r) := tick cfg_temp dma_chan st e in
      let '(st2, rs) := run cfg_temp dma_chan st1 es' in
      (st2, r :: rs)
  end.

(** The invocations happen at strictly increasing clock values, later than
    [t], all below 2^63 microseconds. *)
Fixpoint relogio_crescente (t : Z) (es : list entrada) : Prop :=
  match es with
  | [] => True
  | e :: es' => t < now e < 2 ^ 63 /\ relogio_crescente (now e) es'
  end.

(** What holds of the state after an invocation at time [tl]: inside a
    window, [k] blocks have been accumulated without wrap-around, and each
    of them took at least two invocations, that is two microseconds. *)
Definition janela (tl : Z) (st : state) : Prop :=
  -1 <= tl /\
  match estado_t1 st with
  | ESTADO_PARADO => True
  | ESTADO_INICIANDO =>
      exists k, 0 <= k /\ total_amostras st = BLOCO_AMOSTRAS * k /\
                0 <= inicio_amostragem st /\
                inicio_amostragem st + 2 * k <= tl /\
                2 * k < DURACAO_AMOSTRAGEM_US
  | ESTADO_AGUARDANDO_DMA =>
      exists k, 0 <= k /\ total_amostras st = BLOCO_AMOSTRAS * k /\
                0 <= inicio_amostragem st /\
                inicio_amostragem st + 2 * k + 1 <= tl /\
                2 * k < DURACAO_AMOSTRAGEM_US
  end.

(** The block sum as the design document words it: every converted sample
    is added to the running sum. *)
Definition soma_amostras (buf : list Z) (soma : F32.float) : F32.float :=
  fold_left (fun s raw => F32.add s (convert_to_celsius raw)) buf soma.

(** The block sum with the accumulator the design document describes, a
    float64 into which every converted sample is added. *)
Definition soma_amostras_float64 (buf : list Z) (soma : spec_float)
  : spec_float :=
  fold_left (fun s raw => F64.add s (F64.of_float (convert_to_celsius raw)))
            buf soma.

(** The converted values of the raw readings [0 .. n-1]. *)
Definition tabela_celsius (n : nat) : list F32.float :=
  map (fun k => convert_to_celsius (Z.of_nat k)) (seq 0 n).

(** A finite value other than zero. *)
Definition finito (x : F32.float) : bool :=
  match x with
  | S754_finite _ _ _ => true
  | _ => false
  end.

(** Every element of the list is strictly below the one before it. *)
Fixpoint decrescente (l : list F32.float) : bool :=
  match l with
  | x :: ((y :: _) as l') => F32.ltb y x && decrescente l'
  | _ => true
  end.

End Tarefa1.

(** ** [main.c] *)

Module Main.

(** Calls from [main.c] into the C library and the other modules. *)
Inductive call : Type :=
| printf_temperatura (media : F32.float)
| printf_primeira_leitura
| tarefa3_analisa_tendencia (media : F32.float)
| printf_tarefa2 (t : Z) (tempo3_us : Z)
| tarefa2_exibir_oled (media : F32.float) (t : Z)
| printf_tarefa3 (tempo2_us : Z)
| tarefa4_matriz_cor_por_tendencia (t : Z)
| printf_tarefa4 (tempo4_us : Z)
| npClear
| npSetAll_COR_BRANCA
| npWrite.

(** The globals of [main.c], the [static] locals of its callbacks, the
    state of [tarefa1_temp.c], and the calls made so far (oldest first).
    [tendencia_t] is an enumeration of another module, kept as its integer
    value. The globals [ini_tarefaN] and [fim_tarefaN] are written and read
    back inside one call only, so they are local bindings here. *)
Record state : Type := mkState {
  t1 : Tarefa1.state;
  media : F32.float;
  t : Z;
  leitura_temp_concluida : bool;
  ciclo_finalizado : bool;
  contador_2 : Z;
  contador_3 : Z;
  contador_4 : Z;
  contador_5 : Z;
  estado_5 : bool;
  out : list call
}.

Definition init (done : bool) : state :=
  {| t1 := Tarefa1.init done;
     media := F32.zero;
     t := 0;
     leitura_temp_concluida := false;
     ciclo_finalizado := false;
     contador_2 := 0;
     contador_3 := 0;
     contador_4 := 0;
     contador_5 := 0;
     estado_5 := false;
     out := [] |}.

Section Setup.

(** Declared in [setup.h], which is not part of the sources. *)
Variable cfg_temp : Z.
Variable DMA_TEMP_CHANNEL : Z.

(** [bool tarefa_1(struct repeating_timer *unused)] *)
Definition tarefa_1 (now : Z) (st : state) : state :=
  if negb (ciclo_finalizado st) then
    let '(t1', r) :=
      Tarefa1.tarefa1_obter_media_temp cfg_temp DMA_TEMP_CHANNEL now (t1 st) in
    {| t1 := t1';
       media := media st;
       t := t st;
       leitura_temp_concluida := leitura_temp_concluida st;
       ciclo_finalizado := r;
       contador_2 := contador_2 st;
       contador_3 := contador_3 st;
       contador_4 := contador_4 st;
       contador_5 := contador_5 st;
       estado_5 := estado_5 st;
       out := out st |}
  else
    let media' := Tarefa1.tarefa1_termina (t1 st) in
    {| t1 := t1 st;
       media := media';
       t := t st;
       leitura_temp_concluida := true;
       ciclo_finalizado := false;
       contador_2 := contador_2 st;
       contador_3 := contador_3 st;
       contador_4 := contador_4 st;
       contador_5 := contador_5 st;
       estado_5 := estado_5 st;
       out := out st ++ printf_temperatura media'
                :: (if negb (leitura_temp_concluida st)
                    then [printf_primeira_leitura] else []) |}.

End Setup.

(** [bool tarefa_2(struct repeating_timer *unused)]; [ini] and [fim] are
    the two clock readings and [r] is what [tarefa3_analisa_tendencia]
    returns. *)
Definition tarefa_2 (ini fim r : Z) (st : state) : state :=
  if negb (leitura_temp_concluida st) then st
  else if contador_2 st + 1 <? 3 then
    {| t1 := t1 st;
       media := media st;
       t := t st;
       leitura_temp_concluida := leitura_temp_concluida st;
       ciclo_finalizado := ciclo_finalizado st;
       contador_2 := contador_2 st + 1;
       contador_3 := contador_3 st;
       contador_4 := contador_4 st;
       contador_5 := contador_5 st;
       estado_5 := estado_5 st;
       out := out st |}
  else
    {| t1 := t1 st;
       media := media st;
       t := r;
       leitura_temp_concluida := leitura_temp_concluida st;
       ciclo_finalizado := ciclo_finalizado st;
       contador_2 := 0;
       contador_3 := contador_3 st;
       contador_4 := contador_4 st;
       contador_5 := contador_5 st;
       estado_5 := estado_5 st;
       out := out st ++ [ tarefa3_analisa_tendencia (media st);
                          printf_tarefa2 r (Tarefa1.absolute_time_diff_us ini fim) ] |}.

(** [bool tarefa_3(struct repeating_timer *unused)] *)
Definition tarefa_3 (ini fim : Z) (st : state) : state :=
  if negb (leitura_temp_concluida st) then st
  else if contador_3 st + 1 <? 3 then
    {| t1 := t1 st;
       media := media st;
       t := t st;
       leitura_temp_concluida := leitura_temp_concluida st;
       ciclo_finalizado := ciclo_finalizado st;
       contador_2 := contador_2 st;
       contador_3 := contador_3 st + 1;
       contador_4 := contador_4 st;
       contador_5 := contador_5 st;
       estado_5 := estado_5 st;
       out := out st |}
  else
    {| t1 := t1 st;
       media := media st;
       t := t st;
       leitura_temp_concluida := leitura_temp_concluida st;
       ciclo_finalizado := ciclo_finalizado st;
       contador_2 := contador_2 st;
       contador_3 := 0;
       contador_4 := contador_4 st;
       contador_5 := contador_5 st;
       estado_5 := estado_5 st;
       out := out st ++ [ tarefa2_exibir_oled (media st) (t st);
                          printf_tarefa3 (Tarefa1.absolute_time_diff_us ini fim) ] |}.

(** [bool tarefa_4(struct repeating_timer *unused)] *)
Definition tarefa_4 (ini fim : Z) (st : state) : state :=
  if negb (leitura_temp_concluida st) then st
  else if contador_4 st + 1 <? 3 then
    {| t1 := t1 st;
       media := media st;
       t := t st;
       leitura_temp_concluida := leitura_temp_concluida st;
       ciclo_finalizado := ciclo_finalizado st;
       contador_2 := contador_2 st;
       contador_3 := contador_3 st;
       contador_4 := contador_4 st + 1;
       contador_5 := contador_5 st;
       estado_5 := estado_5 st;
       out := out st |}
  else
    {| t1 := t1 st;
       media := media st;
       t := t st;
       leitura_temp_concluida := leitura_temp_concluida st;
       ciclo_finalizado := ciclo_finalizado st;
       contador_2 := contador_2 st;
       contador_3 := contador_3 st;
       contador_4 := 0;
       contador_5 := contador_5 st;
       estado_5 := estado_5 st;
       out := out st ++ [ tarefa4_matriz_cor_por_tendencia (t st);
                          printf_tarefa4 (Tarefa1.absolute_time_diff_us ini fim) ] |}.

(** [bool tarefa_5(struct repeating_timer *unused)] *)
Definition tarefa_5 (st : state) : state :=
  if negb (leitura_temp_concluida st) then st
  else if contador_5 st + 1 <? 3 then
    {| t1 := t1 st;
       media := media st;
       t := t st;
       leitura_temp_concluida := leitura_temp_concluida st;
       ciclo_finalizado := ciclo_finalizado st;
       contador_2 := contador_2 st;
       contador_3 := contador_3 st;
       contador_4 := contador_4 st;
       contador_5 := contador_5 st + 1;
       estado_5 := estado_5 st;
       out := out st |}
  else if F32.ltb (media st) F32.one then
    {| t1 := t1 st;
       media := media st;
       t := t st;
       leitura_temp_concluida := leitura_temp_concluida st;
       ciclo_finalizado := ciclo_finalizado st;
       contador_2 := contador_2 st;
       contador_3 := contador_3 st;
       contador_4 := contador_4 st;
       contador_5 := 0;
       estado_5 := negb (estado_5 st);
       out := out st ++ [ if estado_5 st then npClear else npSetAll_COR_BRANCA;
                          npWrite ] |}
  else
    {| t1 := t1 st;
       media := media st;
       t := t st;
       leitura_temp_concluida := leitura_temp_concluida st;
       ciclo_finalizado := ciclo_finalizado st;
       contador_2 := contador_2 st;
       contador_3 := contador_3 st;
       contador_4 := contador_4 st;
       contador_5 := 0;
       estado_5 := estado_5 st;
       out := out st ++ [ npClear; npWrite ] |}.

(** *** Executions of the cyclic executor *)

(** What can happen between two idle periods of [main]: the completion
    interrupt of the transfer, or one of the five timer callbacks. *)
Inductive evento : Type :=
| ev_irq_dma (buf : list Z)
| ev_tarefa_1 (now : Z)
| ev_tarefa_2 (ini fim r : Z)
| ev_tarefa_3 (ini fim : Z)
| ev_tarefa_4 (ini fim : Z)
| ev_tarefa_5.

Definition com_t1 (t1' : Tarefa1.state) (st : state) : state :=
  {| t1 := t1';
     media := media st;
     t := t st;
     leitura_temp_concluida := leitura_temp_concluida st;
     ciclo_finalizado := ciclo_finalizado st;
     contador_2 := contador_2 st;
     contador_3 := contador_3 st;
     contador_4 := contador_4 st;
     contador_5 := contador_5 st;
     estado_5 := estado_5 st;
     out := out st |}.

Definition passo (cfg_temp chan : Z) (st : state) (ev : evento) : state :=
  match ev with
  | ev_irq_dma buf => com_t1 (Tarefa1.irq_dma buf (t1 st)) st
  | ev_tarefa_1 now => tarefa_1 cfg_temp chan now st
  | ev_tarefa_2 ini fim r => tarefa_2 ini fim r st
  | ev_tarefa_3 ini fim => tarefa_3 ini fim st
  | ev_tarefa_4 ini fim => tarefa_4 ini fim st
  | ev_tarefa_5 => tarefa_5 st
  end.

Definition executa (cfg_temp chan : Z) (st : state) (evs : list evento)
  : state :=
  fold_left (passo cfg_temp chan) evs st.

(** The states an execution goes through, the first one included. *)
Fixpoint historia (cfg_temp chan : Z) (st : state) (evs : list evento)
  : list state :=
  st :: match evs with
        | [] => []
        | ev :: evs' => historia cfg_temp chan (passo cfg_temp chan st ev) evs'
        end.

(** How many invocations of [tarefa_1] in the execution took the branch
    that copies the average into [media]. *)
Fixpoint leituras_publicadas (cfg_temp chan : Z) (st : state)
    (evs : list evento) : nat :=
  match evs with
  | [] => O
  | ev :: evs' =>
      ((match ev with
        | ev_tarefa_1 _ => if ciclo_finalizado st then 1 else 0
        | _ => 0
        end)
       + leituras_publicadas cfg_temp chan (passo cfg_temp chan st ev) evs')%nat
  end.

(** Changes of a flag from false to true, and from true to false, along a
    list of its successive values. *)
Fixpoint subidas (l : list bool) : nat :=
  match l with
  | a :: ((b :: _) as l') => ((if negb a && b then 1 else 0) + subidas l')%nat
  | _ => O
  end.

Fixpoint descidas (l : list bool) : nat :=
  match l with
  | a :: ((b :: _) as l') => ((if a && negb b then 1 else 0) + descidas l')%nat
  | _ => O
  end.

(** How many times the payload of each throttled callback has run, read off
    the trace of calls: each run makes exactly one of the counted calls. *)
Definition conta (p : call -> bool) (st : state) : nat :=
  length (filter p (out st)).

Definition execucoes_2 : state -> nat :=
  conta (fun c => match c with tarefa3_analisa_tendencia _ => true | _ => false end).
Definition execucoes_3 : state -> nat :=
  conta (fun c => match c with tarefa2_exibir_oled _ _ => true | _ => false end).
Definition execucoes_4 : state -> nat :=
  conta (fun c => match c with tarefa4_matriz_cor_por_tendencia _ => true | _ => false end).
Definition execucoes_5 : state -> nat :=
  conta (fun c => match c with npWrite => true | _ => false end).

(** One invocation of a throttled callback, with the gate open, as the
    design document describes the throttle: the counter stays in [0, 3),
    and either the payload runs and the counter is back at 0, or the
    payload does not run and the counter has advanced by one. *)
Definition divisor_3 (contador : state -> Z) (execucoes : state -> nat)
    (st st' : state) : Prop :=
  leitura_temp_concluida st' = true /\
  0 <= contador st' < 3 /\
  ((contador st + 1 = 3 /\ contador st' = 0 /\
    execucoes st' = S (execucoes st)) \/
   (contador st + 1 < 3 /\ contador st' = contador st + 1 /\
    execucoes st' = execucoes st)).

(** The four throttle counters are in [0, 3). *)
Definition contadores_em_faixa (st : state) : Prop :=
  0 <= contador_2 st < 3 /\ 0 <= contador_3 st < 3 /\
  0 <= contador_4 st < 3 /\ 0 <= contador_5 st < 3.

(** The events other than an invocation of [tarefa_1]. *)
Definition outro_evento (ev : evento) : bool :=
  match ev with
  | ev_tarefa_1 _ => false
  | _ => true
  end.

(** The events that invoke each throttled callback. *)
Definition e_tarefa_2 (ev : evento) : bool :=
  match ev with ev_tarefa_2 _ _ _ => true | _ => false end.
Definition e_tarefa_3 (ev : evento) : bool :=
  match ev with ev_tarefa_3 _ _ => true | _ => false end.
Definition e_tarefa_4 (ev : evento) : bool :=
  match ev with ev_tarefa_4 _ _ => true | _ => false end.
Definition e_tarefa_5 (ev : evento) : bool :=
  match ev with ev_tarefa_5 => true | _ => false end.

Definition invocacoes (p : evento -> bool) (evs : list evento) : Z :=
  Z.of_nat (length (filter p evs)).

(** The throttle of one callback over an execution in which the callback
    is invoked [n] times, interleaved in any way with the other callbacks
    and the interrupt: each invocation obeys [divisor_3]; the counter ends
    at [(c + n) mod 3] and the payload has run [(c + n) / 3] more times,
    where [c] is the counter at the start; so over three invocations the
    payload runs exactly once and the counter is back where it started. *)
Definition divisor_em_execucao (cfg_temp chan : Z) (contador : state -> Z)
    (execucoes : state -> nat) (p : evento -> bool)
    (st : state) (evs : list evento) : Prop :=
  let st' := executa cfg_temp chan st evs in
  let n := invocacoes p evs in
  (forall ev, p ev = true ->
     divisor_3 contador execucoes st (passo cfg_temp chan st ev)) /\
  contador st' = (contador st + n) mod 3 /\
  Z.of_nat (execucoes st') = Z.of_nat (execucoes st) + (contador st + n) / 3 /\
  (n = 3 -> execucoes st' = S (execucoes st) /\ contador st' = contador st).

End Main.

(** ** Concrete scenarios *)

Module Cenario.

Definition zeros : list Z := repeat 0 (Z.to_nat Tarefa1.BLOCO_AMOSTRAS).

(** The state machine waiting for a transfer that has completed, with a
    block of zeros, the window opened at time 0. *)
Definition aguardando : Tarefa1.state :=
  {| Tarefa1.estado_t1 := Tarefa1.ESTADO_AGUARDANDO_DMA;
     Tarefa1.inicio_amostragem := 0;
     Tarefa1.soma_temp := F32.zero;
     Tarefa1.total_amostras := 0;
     Tarefa1.media_temp := F32.zero;
     Tarefa1.buffer_temp := zeros;
     Tarefa1.dma_temp_done := true;
     Tarefa1.hw := [] |}.

(** The same, with the transfer still running. *)
Definition aguardando_sem_sinal : Tarefa1.state :=
  {| Tarefa1.estado_t1 := Tarefa1.ESTADO_AGUARDANDO_DMA;
     Tarefa1.inicio_amostragem := 0;
     Tarefa1.soma_temp := F32.zero;
     Tarefa1.total_amostras := 0;
     Tarefa1.media_temp := F32.zero;
     Tarefa1.buffer_temp := zeros;
     Tarefa1.dma_temp_done := false;
     Tarefa1.hw := [] |}.

(** The executor from program start: the window opens, the transfer is
    started, and the transfer completes with a block of zeros. *)
Definition antes_do_fim : Main.state :=
  Main.executa 0 0 (Main.init false)
    [ Main.ev_tarefa_1 1000; Main.ev_tarefa_1 501000; Main.ev_irq_dma zeros ].

(** Then the state machine reports the end of the cycle, the next
    invocation of [tarefa_1] opens the gate, and [tarefa_2] is invoked
    once. *)
Definition contador_em_1 : Main.state :=
  Main.executa 0 0 antes_do_fim
    [ Main.ev_tarefa_1 1001000; Main.ev_tarefa_1 1501000;
      Main.ev_tarefa_2 1501010 1501020 1 ].

End Cenario.

(** ** Further observations on the two files *)

Module Complementos.
Import Tarefa1.

(** [x <= y] on floats. *)
Definition leb : F32.float -> F32.float -> bool := SFleb.

(** Whether the ADC is free-running after a sequence of driver calls: what
    the last [adc_run] asked for, and stopped if there was none. *)
Definition adc_ligado (calls : list hw_call) : bool :=
  fold_left (fun b c => match c with adc_run r => r | _ => b end) calls false.

(** A driver call as [iniciar_dma_temp] and the state machine make them,
    for the configuration and channel [tarefa1_obter_media_temp] was given:
    input 4 selected, a transfer of exactly [BLOCO_AMOSTRAS] samples on that
    channel, started at once. *)
Definition chamada_regular (cfg_temp dma_chan : Z) (c : hw_call) : bool :=
  match c with
  | adc_select_input input => input =? 4
  | dma_channel_configure chan cfg count trigger =>
      (chan =? dma_chan) && (cfg =? cfg_temp) && (count =? BLOCO_AMOSTRAS)
      && trigger
  | _ => true
  end.

(** The ADC is free-running exactly in [ESTADO_AGUARDANDO_DMA], and every
    driver call made so far is regular. *)
Definition chamadas_coerentes (cfg_temp dma_chan : Z) (st : state) : Prop :=
  adc_ligado (hw st)
  = match estado_t1 st with
    | ESTADO_AGUARDANDO_DMA => true
    | _ => false
    end /\
  forallb (chamada_regular cfg_temp dma_chan) (hw st) = true.

Definition transferencias (calls : list hw_call) : nat :=
  length (filter (fun c => match c with
                           | dma_channel_configure _ _ _ _ => true
                           | _ => false
                           end) calls).

(** No interrupt arrives during the invocations. *)
Definition sem_irq (es : list entrada) : bool :=
  forallb (fun e => match irq e with None => true | Some _ => false end) es.

(** The invocations are at least [p] microseconds apart, the first one at
    least [p] after [t], all below 2^63. *)
Fixpoint relogio_periodico (p t : Z) (es : list entrada) : Prop :=
  match es with
  | [] => True
  | e :: es' => t + p <= now e < 2 ^ 63 /\ relogio_periodico p (now e) es'
  end.

(** Inside a window whose invocations are at least [p] apart: no block has
    been accumulated yet, and the window opened at least [p] before the
    invocation that started the transfer. *)
Definition primeiro_bloco (p tl : Z) (st : state) : Prop :=
  match estado_t1 st with
  | ESTADO_PARADO => True
  | ESTADO_INICIANDO =>
      total_amostras st = 0 /\ soma_temp st = F32.zero /\
      0 <= inicio_amostragem st <= tl
  | ESTADO_AGUARDANDO_DMA =>
      total_amostras st = 0 /\ soma_temp st = F32.zero /\
      0 <= inicio_amostragem st /\ inicio_amostragem st + p <= tl
  end.

(** The temperature drop from raw value [k] to raw value [k + 1]. *)
Definition passo_celsius (k : Z) : F32.float :=
  F32.sub (convert_to_celsius k) (convert_to_celsius (k + 1)).

(** [0.467f], [0.469f] and the converted values at the two ends of the
    12-bit range. *)
Definition lit_0_467 : F32.float := S754_finite false 15669920 (-25).
Definition lit_0_469 : F32.float := S754_finite false 15737029 (-25).
Definition celsius_max : F32.float := S754_finite false 14327041 (-15).
Definition celsius_min : F32.float := S754_finite true 12122482 (-13).

(** A finite binary32 value in canonical form, within the two bounds. *)
Definition entre (lo hi x : F32.float) : bool :=
  finito x && valid_binary F32.prec F32.emax x && leb lo x && leb x hi.

(** The check made on every raw value [k] of the range: the converted
    value is within the two ends, and the drop to the next raw value is
    between 0.467 and 0.469 degrees. *)
Definition confere_celsius (k : nat) : bool :=
  entre celsius_min celsius_max (convert_to_celsius (Z.of_nat k))
  && entre lit_0_467 lit_0_469 (passo_celsius (Z.of_nat k)).

(** The downstream callbacks. *)
Definition e_jusante (ev : Main.evento) : bool :=
  match ev with
  | Main.ev_tarefa_2 _ _ _ | Main.ev_tarefa_3 _ _
  | Main.ev_tarefa_4 _ _ | Main.ev_tarefa_5 => true
  | _ => false
  end.

(** What the executor keeps true from program start: while the completion
    flag of [tarefa_1] is clear, [media] is the average latched by the
    state machine; while the gate is closed nothing has been printed or
    displayed and [media] is [0.0f]; with the gate open the first-reading
    message has been printed exactly once. *)
Definition publicacao_coerente (st : Main.state) : Prop :=
  (Main.ciclo_finalizado st = false ->
   Main.media st = media_temp (Main.t1 st)) /\
  (Main.leitura_temp_concluida st = false ->
   Main.out st = [] /\ Main.media st = F32.zero) /\
  (Main.leitura_temp_concluida st = true ->
   Main.conta (fun c => match c with
                        | Main.printf_primeira_leitura => true
                        | _ => false
                        end) st = 1%nat).

(** How many invocations of [tarefa_1] in the execution called the state
    machine and got the report that a cycle has ended. *)
Fixpoint ciclos_concluidos (cfg_temp chan : Z) (st : Main.state)
    (evs : list Main.evento) : nat :=
  match evs with
  | [] => O
  | ev :: evs' =>
      ((match ev with
        | Main.ev_tarefa_1 now =>
            if Main.ciclo_finalizado st then 0
            else if snd (tarefa1_obter_media_temp cfg_temp chan now
                           (Main.t1 st))
                 then 1 else 0
        | _ => 0
        end)
       + ciclos_concluidos cfg_temp chan
           (Main.passo cfg_temp chan st ev) evs')%nat
  end.

(** A first acquisition cycle up to the invocation that publishes it:
    three invocations of [tarefa_1] at [a], [b] and [c], the completion
    interrupt delivering [buf] between the second and the third, and
    downstream callbacks in between. *)
Definition primeiro_ciclo (a b c : Z) (buf : list Z)
    (ds1 ds2 ds3 ds4 : list Main.evento) : list Main.evento :=
  ([Main.ev_tarefa_1 a] ++ ds1 ++ [Main.ev_tarefa_1 b])
  ++ (ds2 ++ [Main.ev_irq_dma buf])
  ++ (ds3 ++ [Main.ev_tarefa_1 c])
  ++ ds4.

(** The average of one block accumulated from [0.0f]. *)
Definition media_do_bloco (buf : list Z) : F32.float :=
  F32.div (soma_amostras buf F32.zero) (F32.of_int BLOCO_AMOSTRAS).

(** The check of the converted value of raw [k] against the decimal
    bounds -1479.8 and 437.23. *)
Definition confere_faixa (k : nat) : bool :=
  entre (F32.div (F32.of_int (-14798)) (F32.of_int 10))
        (F32.div (F32.of_int 43723) (F32.of_int 100))
        (convert_to_celsius (Z.of_nat k)).

(** The four throttle counters are at 0. *)
Definition contadores_em_zero (st : Main.state) : Prop :=
  Main.contador_2 st = 0 /\ Main.contador_3 st = 0 /\
  Main.contador_4 st = 0 /\ Main.contador_5 st = 0.

(** Three invocations of a throttled callback that start from counter 0
    end at counter 0 with the payload run exactly once. *)
Definition tres_desde_zero (cfg_temp chan : Z) (contador : Main.state -> Z)
    (execucoes : Main.state -> nat) (p : Main.evento -> bool)
    (st : Main.state) (evs : list Main.evento) : Prop :=
  contador st = 0 /\
  (Main.invocacoes p evs = 3 ->
   contador (Main.executa cfg_temp chan st evs) = 0 /\
   execucoes (Main.executa cfg_temp chan st evs) = S (execucoes st)).

(** One base tick in which the five callbacks run once each in the order
    [main] registers their timers, after the interrupt if one is pending. *)
Record tique : Type := mkTique {
  tq_irq : option (list Z);
  tq_now : Z;
  tq_ini2 : Z; tq_fim2 : Z; tq_r : Z;
  tq_ini3 : Z; tq_fim3 : Z;
  tq_ini4 : Z; tq_fim4 : Z
}.

Definition eventos_do_tique (q : tique) : list Main.evento :=
  (match tq_irq q with
   | Some buf => [Main.ev_irq_dma buf]
   | None => []
   end)
  ++ [ Main.ev_tarefa_1 (tq_now q);
       Main.ev_tarefa_2 (tq_ini2 q) (tq_fim2 q) (tq_r q);
       Main.ev_tarefa_3 (tq_ini3 q) (tq_fim3 q);
       Main.ev_tarefa_4 (tq_ini4 q) (tq_fim4 q);
       Main.ev_tarefa_5 ].

Definition eventos_dos_tiques (qs : list tique) : list Main.evento :=
  flat_map eventos_do_tique qs.

(** The four throttles are in phase: same counter, same number of payload
    runs. *)
Definition em_fase (st : Main.state) : Prop :=
  Main.contador_3 st = Main.contador_2 st /\
  Main.contador_4 st = Main.contador_2 st /\
  Main.contador_5 st = Main.contador_2 st /\
  Main.execucoes_3 st = Main.execucoes_2 st /\
  Main.execucoes_4 st = Main.execucoes_2 st /\
  Main.execucoes_5 st = Main.execucoes_2 st.

(** Six invocations of [tarefa_5] in a row. *)
Definition tarefa_5_seis (st : Main.state) : Main.state :=
  Main.tarefa_5 (Main.tarefa_5 (Main.tarefa_5
    (Main.tarefa_5 (Main.tarefa_5 (Main.tarefa_5 st))))).

End Complementos.

(** * Properties *)

(** ** Facts about the rounding of [SpecFloat] *)

Module FloatFacts.

Lemma iter_pos_nat : forall (A : Type) (f : A -> A) p x,
  iter_pos f p x = Nat.iter (Pos.to_nat p) f x.
Proof.
  intros A f. induction p as [p IH|p IH|]; intros x; cbn [iter_pos].
  - rewrite !IH, Pos2Nat.inj_xI, <- Nat.iter_succ_r, <- Nat.iter_add.
    f_equal. lia.
  - rewrite !IH, Pos2Nat.inj_xO, <- Nat.iter_add. f_equal. lia.
  - reflexivity.
Qed.

Lemma shr_1_m : forall mrs, 0 <= shr_m mrs -> shr_m (shr_1 mrs) = shr_m mrs / 2.
Proof.
  intros [m r s] H. cbn [shr_m] in *.
  destruct m as [|p|p]; [reflexivity| |lia].
  destruct p; cbn [shr_1 shr_m].
  - rewrite Pos2Z.inj_xI. apply Z.div_unique with 1; lia.
  - rewrite Pos2Z.inj_xO. apply Z.div_unique with 0; lia.
  - reflexivity.
Qed.

Lemma shr_iter_m : forall n mrs, 0 <= shr_m mrs ->
  shr_m (Nat.iter n shr_1 mrs) = shr_m mrs / 2 ^ Z.of_nat n.
Proof.
  induction n as [|n IH]; intros mrs H.
  - cbn. rewrite Z.div_1_r. reflexivity.
  - rewrite Nat.iter_succ, shr_1_m.
    + rewrite IH by exact H. rewrite Nat2Z.inj_succ, Z.pow_succ_r by lia.
      rewrite Z.div_div by lia. f_equal. lia.
    + rewrite IH by exact H. apply Z.div_pos; lia.
Qed.

Lemma shr_spec : forall mrs e n, 0 <= shr_m mrs ->
  shr_m (fst (shr mrs e n)) = shr_m mrs / 2 ^ Z.max 0 n /\
  snd (shr mrs e n) = e + Z.max 0 n.
Proof.
  intros mrs e n H. destruct n as [|p|p]; cbn [shr fst snd].
  - rewrite Z.div_1_r. split; [reflexivity|lia].
  - rewrite iter_pos_nat, shr_iter_m by exact H.
    rewrite positive_nat_Z. rewrite Z.max_r by lia. split; reflexivity.
  - rewrite Z.max_l by lia. rewrite Z.div_1_r. split; [reflexivity|lia].
Qed.

Lemma shr_record_of_loc_m : forall m l, shr_m (shr_record_of_loc m l) = m.
Proof. intros m [|[]]; reflexivity. Qed.

Lemma Zdigits2_bounds : forall m, 0 < m ->
  2 ^ (Zdigits2 m - 1) <= m < 2 ^ Zdigits2 m.
Proof.
  intros [|p|p] H; try lia. cbn [Zdigits2].
  induction p as [p IH|p IH|].
  - cbn [digits2_pos]. rewrite Pos2Z.inj_succ.
    replace (Z.succ (Z.pos (digits2_pos p)) - 1) with (Z.succ (Z.pos (digits2_pos p) - 1)) by lia.
    rewrite !Z.pow_succ_r by lia. specialize (IH ltac:(lia)). lia.
  - cbn [digits2_pos]. rewrite Pos2Z.inj_succ.
    replace (Z.succ (Z.pos (digits2_pos p)) - 1) with (Z.succ (Z.pos (digits2_pos p) - 1)) by lia.
    rewrite !Z.pow_succ_r by lia. specialize (IH ltac:(lia)). lia.
  - cbn. lia.
Qed.

Lemma Zdigits2_nonneg : forall m, 0 <= Zdigits2 m.
Proof. intros [|p|p]; cbn; lia. Qed.

Section Round.
Variables prec emax : Z.
Hypothesis prec_pos : 0 < prec.

Lemma shr_fexp_spec : forall m e l, 0 <= m ->
  let n := Z.max 0 (fexp prec emax (Zdigits2 m + e) - e) in
  shr_m (fst (shr_fexp prec emax m e l)) = m / 2 ^ n /\
  snd (shr_fexp prec emax m e l) = e + n.
Proof.
  intros m e l H n. unfold shr_fexp.
  destruct (shr_spec (shr_record_of_loc m l) e
              (fexp prec emax (Zdigits2 m + e) - e)) as [H1 H2].
  - rewrite shr_record_of_loc_m. exact H.
  - rewrite shr_record_of_loc_m in H1. split; assumption.
Qed.

Lemma round_nearest_even_bounds : forall m l,
  m <= round_nearest_even m l <= m + 1.
Proof.
  intros m [|[]]; cbn [round_nearest_even]; try lia.
  destruct (Z.even m); lia.
Qed.

(** Bounds on a quotient by a power of two. *)
Lemma div_pow2_lt : forall m d n p, 0 <= m < 2 ^ d -> 0 <= n -> 0 <= p -> d - p <= n ->
  m / 2 ^ n < 2 ^ p.
Proof.
  intros m d n p Hm Hn Hp Hd.
  apply Z.div_lt_upper_bound; [lia|].
  rewrite <- Z.pow_add_r by lia.
  apply Z.lt_le_trans with (2 ^ d); [lia|].
  destruct (Z.le_gt_cases 0 d).
  - apply Z.pow_le_mono_r; lia.
  - rewrite (Z.pow_neg_r 2 d) by lia. apply Z.pow_nonneg. lia.
Qed.

Lemma div_pow2_pos : forall m d n, 2 ^ (d - 1) <= m -> 0 <= n <= d - 1 -> 0 < m / 2 ^ n.
Proof.
  intros m d n Hm Hn.
  apply Z.div_str_pos. split; [lia|].
  apply Z.le_trans with (2 ^ (d - 1)); [|lia].
  apply Z.pow_le_mono_r; lia.
Qed.

Lemma Zdigits2_lt : forall m p, 0 <= m < 2 ^ p -> 0 <= p -> Zdigits2 m <= p.
Proof.
  intros m p Hm Hp.
  destruct (Z.eq_dec m 0) as [->|Hne]; [cbn; lia|].
  destruct (Zdigits2_bounds m ltac:(lia)) as [Hlo _].
  destruct (Z.le_gt_cases (Zdigits2 m) p) as [|Hgt]; [assumption|].
  assert (2 ^ p <= 2 ^ (Zdigits2 m - 1)) by (apply Z.pow_le_mono_r; lia).
  lia.
Qed.

(** The two shifts of [binary_round_aux] leave a significand below
    [2 ^ prec]; it is positive when the input is and lies above the
    smallest exponent; the exponent grows by at most one past the target. *)
Lemma binary_round_aux_m : forall sx mx ex lx, 0 <= mx ->
  exists m e, 0 <= m < 2 ^ prec /\
    e <= Z.max ex (fexp prec emax (Zdigits2 mx + ex)) + 1 /\
    (0 < mx -> emin prec emax < Zdigits2 mx + ex -> 0 < m) /\
    binary_round_aux prec emax sx mx ex lx =
    match m with
    | Z0 => S754_zero sx
    | Zpos p => if e <=? emax - prec then S754_finite sx p e else S754_infinity sx
    | Zneg _ => S754_nan
    end.
Proof.
  intros sx mx ex lx Hmx. unfold binary_round_aux.
  destruct (shr_fexp_spec mx ex lx Hmx) as [H1 H1e].
  destruct (shr_fexp prec emax mx ex lx) as [mrs1 e1]. cbn [fst snd] in *.
  set (m2 := round_nearest_even (shr_m mrs1) (loc_of_shr_record mrs1)).
  pose proof (round_nearest_even_bounds (shr_m mrs1) (loc_of_shr_record mrs1)) as Hr.
  fold m2 in Hr.
  pose proof (Zdigits2_nonneg mx) as Hdx.
  assert (Hm1 : 0 <= shr_m mrs1 < 2 ^ prec).
  { rewrite H1. split; [apply Z.div_pos; lia|].
    destruct (Z.eq_dec mx 0) as [->|Hne].
    - rewrite Z.div_0_l by lia. apply Z.pow_pos_nonneg; lia.
    - apply div_pow2_lt with (Zdigits2 mx); try lia.
      + pose proof (Zdigits2_bounds mx ltac:(lia)). lia.
      + unfold fexp. lia. }
  assert (Hm2 : 0 <= m2 <= 2 ^ prec) by lia.
  assert (Hd2 : 0 <= Zdigits2 m2 <= prec + 1).
  { split; [apply Zdigits2_nonneg|]. apply Zdigits2_lt; [|lia].
    rewrite Z.pow_add_r, Z.pow_1_r by lia. lia. }
  assert (He1 : emin prec emax <= e1) by (rewrite H1e; unfold fexp; lia).
  destruct (shr_fexp_spec m2 e1 loc_Exact (proj1 Hm2)) as [H2 H2e].
  destruct (shr_fexp prec emax m2 e1 loc_Exact) as [mrs2 e2]. cbn [fst snd] in *.
  exists (shr_m mrs2), e2. repeat split.
  - rewrite H2. apply Z.div_pos; lia.
  - rewrite H2.
    destruct (Z.eq_dec m2 (2 ^ prec)) as [E|NE].
    + assert (Hd : Zdigits2 m2 = prec + 1).
      { pose proof (Zdigits2_bounds m2 ltac:(lia)) as [Hlo Hhi].
        assert (prec < Zdigits2 m2)
          by (apply (Z.pow_lt_mono_r_iff 2); lia).
        lia. }
      rewrite Hd. apply div_pow2_lt with (prec + 1); try lia.
      * rewrite E. split; [lia|]. apply Z.pow_lt_mono_r; lia.
      * unfold fexp. lia.
    + apply Z.le_lt_trans with m2; [|lia].
      apply Z.div_le_upper_bound; [lia|].
      assert (0 < 2 ^ Z.max 0 (fexp prec emax (Zdigits2 m2 + e1) - e1))
        by (apply Z.pow_pos_nonneg; lia).
      nia.
  - rewrite H2e, H1e. unfold fexp in *. lia.
  - intros Hpos Hemin. rewrite H2.
    assert (Hp1 : 0 < shr_m mrs1).
    { rewrite H1. apply div_pow2_pos with (Zdigits2 mx).
      - apply Zdigits2_bounds. exact Hpos.
      - pose proof (Zdigits2_bounds mx Hpos) as [Hlo Hhi].
        assert (0 < Zdigits2 mx).
        { destruct (Z.le_gt_cases (Zdigits2 mx) 0) as [Hle|]; [|assumption].
          assert (2 ^ Zdigits2 mx <= 2 ^ 0) by (apply Z.pow_le_mono_r; lia).
          cbn in *. lia. }
        unfold fexp. lia. }
    apply div_pow2_pos with (Zdigits2 m2).
    + apply Zdigits2_bounds. lia.
    + pose proof (Zdigits2_bounds m2 ltac:(lia)) as [Hlo Hhi].
      assert (0 < Zdigits2 m2).
      { destruct (Z.le_gt_cases (Zdigits2 m2) 0) as [Hle|]; [|assumption].
        assert (2 ^ Zdigits2 m2 <= 2 ^ 0) by (apply Z.pow_le_mono_r; lia).
        cbn in *. lia. }
      unfold fexp. lia.
Qed.

Lemma binary_round_aux_bits : forall sx mx ex lx, 0 <= mx ->
  F32.sig_bits (binary_round_aux prec emax sx mx ex lx) <= prec.
Proof.
  intros sx mx ex lx H.
  destruct (binary_round_aux_m sx mx ex lx H) as (m & e & Hm & _ & _ & ->).
  destruct m as [|p|p]; cbn [F32.sig_bits]; try lia.
  destruct (e <=? emax - prec); cbn [F32.sig_bits]; [|lia].
  apply (Zdigits2_lt (Zpos p)); lia.
Qed.

Lemma binary_normalize_bits : forall m e s,
  F32.sig_bits (binary_normalize prec emax m e s) <= prec.
Proof.
  intros [|p|p] e s; cbn [binary_normalize F32.sig_bits]; [lia| |];
    unfold binary_round; destruct (shl_align _ _ _) as [mz ez];
    apply binary_round_aux_bits; lia.
Qed.

Lemma SFadd_bits : forall x y, F32.sig_bits x <= prec -> F32.sig_bits y <= prec ->
  F32.sig_bits (SFadd prec emax x y) <= prec.
Proof.
  intros [sx|sx| |sx mx ex] [sy|sy| |sy my ey] Hx Hy; cbn [SFadd F32.sig_bits] in *;
    try lia; try (destruct sx, sy; cbn [F32.sig_bits]; lia).
  apply binary_normalize_bits.
Qed.

Lemma SFsub_bits : forall x y, F32.sig_bits x <= prec -> F32.sig_bits y <= prec ->
  F32.sig_bits (SFsub prec emax x y) <= prec.
Proof.
  intros [sx|sx| |sx mx ex] [sy|sy| |sy my ey] Hx Hy; cbn [SFsub F32.sig_bits] in *;
    try lia; try (destruct sx, sy; cbn [F32.sig_bits]; lia).
  apply binary_normalize_bits.
Qed.

Lemma SFmul_bits : forall x y, F32.sig_bits (SFmul prec emax x y) <= prec.
Proof.
  intros [sx|sx| |sx mx ex] [sy|sy| |sy my ey]; cbn [SFmul F32.sig_bits]; try lia.
  apply binary_round_aux_bits. lia.
Qed.

Lemma SFdiv_bits : forall x y, F32.sig_bits (SFdiv prec emax x y) <= prec.
Proof.
  intros [sx|sx| |sx mx ex] [sy|sy| |sy my ey]; cbn [SFdiv F32.sig_bits]; try lia.
  unfold SFdiv_core_binary.
  set (m' := match _ with Z0 => Z.pos mx | Zpos _ => _ | Zneg _ => 0 end).
  assert (Hm' : 0 <= m').
  { subst m'. destruct (_ - _ - _); try lia. apply Z.shiftl_nonneg. lia. }
  pose proof (Z.div_pos m' (Zpos my) Hm' ltac:(lia)) as Hq.
  unfold Z.div in Hq. destruct (Z.div_eucl m' (Z.pos my)) as [q r].
  apply binary_round_aux_bits. exact Hq.
Qed.

Lemma digits2_pos_iter_xO : forall d p,
  Zpos (digits2_pos (Pos.iter xO p d)) = Zpos (digits2_pos p) + Zpos d.
Proof.
  intros d p. induction d as [|d IH] using Pos.peano_ind.
  - cbn. lia.
  - rewrite Pos.iter_succ. cbn [digits2_pos]. lia.
Qed.

End Round.

(** A positive 32-bit integer converts to a positive finite [float]. *)
Lemma of_int_pos : forall n, 0 < n < 2 ^ 32 ->
  exists m e, F32.of_int n = S754_finite false m e.
Proof.
  intros [|p|p] Hn; try lia. unfold F32.of_int, F32.prec, F32.emax.
  cbn [binary_normalize]. unfold binary_round.
  assert (Hd : Zpos (digits2_pos p) <= 32) by (apply (Zdigits2_lt (Zpos p)); lia).
  assert (Hal : exists mz ez,
            shl_align p 0 (fexp 24 128 (Zpos (digits2_pos p) + 0)) = (mz, ez) /\
            ez <= 0 /\ -149 < Zpos (digits2_pos mz) + ez <= 32).
  { unfold shl_align, fexp, emin.
    destruct (Z.max (Z.pos (digits2_pos p) + 0 - 24) (3 - 128 - 24) - 0) as [|d|d] eqn:E.
    - exists p, 0. repeat split; lia.
    - exists p, 0. pose proof (Pos2Z.is_pos d). repeat split; lia.
    - eexists _, _. split; [reflexivity|]. rewrite digits2_pos_iter_xO.
      pose proof (Pos2Z.neg_is_neg d). pose proof (Pos2Z.opp_pos d). lia. }
  destruct Hal as (mz & ez & -> & Hez & Hdz).
  destruct (binary_round_aux_m 24 128 ltac:(lia) false (Zpos mz) ez loc_Exact ltac:(lia))
    as (m & e & Hm & He & Hpos & ->).
  specialize (Hpos ltac:(lia)). cbn [Zdigits2] in *.
  unfold fexp, emin in *. specialize (Hpos ltac:(lia)).
  destruct m as [|q|q]; try lia.
  destruct (Z.leb_spec e (128 - 24)); [|exfalso; lia].
  eexists _, _. reflexivity.
Qed.

End FloatFacts.

(** ** The acquisition state machine, one invocation *)

Module Tarefa1Props.
Import Tarefa1.

(** The index loop over the buffer adds the samples in order. *)
Lemma soma_bloco_app : forall l pre soma,
  soma_bloco (pre ++ l) (length l) (Z.of_nat (length pre)) soma
  = soma_amostras l soma.
Proof.
  induction l as [|x l IH]; intros pre soma; [reflexivity|].
  cbn [length soma_bloco soma_amostras fold_left].
  rewrite Nat2Z.id, nth_middle.
  replace (pre ++ x :: l) with ((pre ++ [x]) ++ l)
    by (rewrite <- app_assoc; reflexivity).
  replace (Z.of_nat (length pre) + 1) with (Z.of_nat (length (pre ++ [x])))
    by (rewrite length_app; cbn [length]; lia).
  apply IH.
Qed.

Lemma soma_bloco_buffer : forall buf soma,
  length buf = Z.to_nat BLOCO_AMOSTRAS ->
  soma_bloco buf (Z.to_nat BLOCO_AMOSTRAS) 0 soma = soma_amostras buf soma.
Proof.
  intros buf soma H. rewrite <- H. apply (soma_bloco_app buf []).
Qed.

(** The average stored when the window has elapsed. *)
Lemma aguardando_fim_media : forall cfg_temp dma_chan now st,
  estado_t1 st = ESTADO_AGUARDANDO_DMA ->
  dma_temp_done st = true ->
  length (buffer_temp st) = Z.to_nat BLOCO_AMOSTRAS ->
  (absolute_time_diff_us (inicio_amostragem st) now
     >=? DURACAO_AMOSTRAGEM_US) = true ->
  media_temp (fst (tarefa1_obter_media_temp cfg_temp dma_chan now st))
  = F32.div (soma_amostras (buffer_temp st) (soma_temp st))
            (F32.of_int ((total_amostras st + BLOCO_AMOSTRAS) mod 2 ^ 32)).
Proof.
  intros cfg_temp dma_chan now st He Hd Hl Ht.
  unfold tarefa1_obter_media_temp. rewrite He, Hd, Ht.
  rewrite (soma_bloco_buffer _ _ Hl). reflexivity.
Qed.

(** The average of a block of zeros accumulated from [0.0f]. *)
Lemma media_do_bloco_de_zeros :
  F32.div (soma_amostras Cenario.zeros F32.zero) (F32.of_int 10000)
  = S754_finite false 14327374 (-15).
Proof. vm_compute. reflexivity. Qed.

(** C1. In [ESTADO_AGUARDANDO_DMA] with [dma_temp_done] raised, an
    invocation stops the ADC, adds the converted value of every one of the
    [BLOCO_AMOSTRAS] samples of the buffer to [soma_temp] and adds the block
    size to [total_amostras]; then, if the time elapsed since
    [inicio_amostragem] is at least [DURACAO_AMOSTRAGEM_US], it stores
    [soma_temp / total_amostras] in [media_temp], goes to [ESTADO_PARADO]
    and returns true; otherwise it goes to [ESTADO_INICIANDO] and returns
    false. *)
Theorem aguardando_bloco_concluido : forall cfg_temp dma_chan now st,
  estado_t1 st = ESTADO_AGUARDANDO_DMA ->
  dma_temp_done st = true ->
  length (buffer_temp st) = Z.to_nat BLOCO_AMOSTRAS ->
  let st' := fst (tarefa1_obter_media_temp cfg_temp dma_chan now st) in
  let r := snd (tarefa1_obter_media_temp cfg_temp dma_chan now st) in
  hw st' = hw st ++ [adc_run false] /\
  soma_temp st' = soma_amostras (buffer_temp st) (soma_temp st) /\
  total_amostras st' = (total_amostras st + BLOCO_AMOSTRAS) mod 2 ^ 32 /\
  (DURACAO_AMOSTRAGEM_US <= absolute_time_diff_us (inicio_amostragem st) now ->
     media_temp st' = F32.div (soma_temp st') (F32.of_int (total_amostras st')) /\
     estado_t1 st' = ESTADO_PARADO /\ r = true) /\
  (absolute_time_diff_us (inicio_amostragem st) now < DURACAO_AMOSTRAGEM_US ->
     media_temp st' = media_temp st /\
     estado_t1 st' = ESTADO_INICIANDO /\ r = false).
Proof.
  intros cfg_temp dma_chan now st He Hd Hl.
  unfold tarefa1_obter_media_temp. rewrite He, Hd.
  rewrite (soma_bloco_buffer _ _ Hl).
  destruct (absolute_time_diff_us (inicio_amostragem st) now
              >=? DURACAO_AMOSTRAGEM_US) eqn:Ht; cbn [fst snd];
    cbn [hw soma_temp total_amostras media_temp estado_t1];
    repeat split; try reflexivity; intros; lia.
Qed.

Lemma aguardando_bloco_concluido_witness :
  let st' := fst (tarefa1_obter_media_temp 0 0 500000 Cenario.aguardando) in
  soma_temp st' = soma_amostras Cenario.zeros F32.zero /\
  total_amostras st' = 10000 /\
  media_temp st' = F32.div (soma_temp st') (F32.of_int 10000) /\
  estado_t1 st' = ESTADO_PARADO /\
  snd (tarefa1_obter_media_temp 0 0 500000 Cenario.aguardando) = true.
Proof.
  destruct (aguardando_bloco_concluido 0 0 500000 Cenario.aguardando)
    as (_ & Hs & Ht & Hfim & _);
    [reflexivity | reflexivity | lazy; reflexivity |].
  destruct Hfim as (Hm & He & Hr); [lazy; discriminate|].
  cbv zeta. rewrite Hm, Hs, Ht. repeat split; assumption.
Defined.

(** C6. In [ESTADO_AGUARDANDO_DMA] with [dma_temp_done] still false an
    invocation changes nothing (state, running sum, sample count, latched
    average, every other variable) and returns false. *)
Theorem aguardando_sem_sinal_nada_muda : forall cfg_temp dma_chan now st,
  estado_t1 st = ESTADO_AGUARDANDO_DMA ->
  dma_temp_done st = false ->
  tarefa1_obter_media_temp cfg_temp dma_chan now st = (st, false).
Proof.
  intros cfg_temp dma_chan now st He Hd.
  unfold tarefa1_obter_media_temp. rewrite He, Hd. reflexivity.
Qed.

Lemma aguardando_sem_sinal_nada_muda_witness :
  tarefa1_obter_media_temp 0 0 700000 Cenario.aguardando_sem_sinal
  = (Cenario.aguardando_sem_sinal, false).
Proof.
  apply aguardando_sem_sinal_nada_muda; reflexivity.
Defined.

(** C8. In [ESTADO_PARADO] an invocation sets [soma_temp] and
    [total_amostras] to zero, records the current time in
    [inicio_amostragem], goes to [ESTADO_INICIANDO] in that same invocation
    and returns false; nothing else changes. *)
Theorem parado_reinicia_contexto : forall cfg_temp dma_chan now st,
  estado_t1 st = ESTADO_PARADO ->
  tarefa1_obter_media_temp cfg_temp dma_chan now st
  = ({| estado_t1 := ESTADO_INICIANDO;
        inicio_amostragem := now;
        soma_temp := F32.zero;
        total_amostras := 0;
        media_temp := media_temp st;
        buffer_temp := buffer_temp st;
        dma_temp_done := dma_temp_done st;
        hw := hw st |}, false).
Proof.
  intros cfg_temp dma_chan now st He.
  unfold tarefa1_obter_media_temp. rewrite He. reflexivity.
Qed.

Lemma parado_reinicia_contexto_witness :
  let st' := fst (tarefa1_obter_media_temp 0 0 1000 (init false)) in
  soma_temp st' = F32.zero /\ total_amostras st' = 0 /\
  inicio_amostragem st' = 1000 /\ estado_t1 st' = ESTADO_INICIANDO /\
  snd (tarefa1_obter_media_temp 0 0 1000 (init false)) = false.
Proof.
  rewrite (parado_reinicia_contexto 0 0 1000 (init false) eq_refl).
  cbn. repeat split.
Defined.

End Tarefa1Props.

(** ** The acquisition state machine, executions *)

Module Tarefa1Runs.
Import Tarefa1.

(** The interrupt touches only the buffer and the completion flag. *)
Lemma antes_campos : forall e st,
  estado_t1 (antes e st) = estado_t1 st /\
  inicio_amostragem (antes e st) = inicio_amostragem st /\
  total_amostras (antes e st) = total_amostras st /\
  media_temp (antes e st) = media_temp st.
Proof.
  intros e st. unfold antes. destruct (irq e); repeat split.
Qed.

(** [media_temp] is written only by the branch that returns true. *)
Lemma tick_false_media : forall cfg_temp dma_chan st e,
  snd (tick cfg_temp dma_chan st e) = false ->
  media_temp (fst (tick cfg_temp dma_chan st e)) = media_temp st.
Proof.
  intros cfg_temp dma_chan st e.
  destruct (antes_campos e st) as (_ & _ & _ & Hm).
  unfold tick, tarefa1_obter_media_temp.
  destruct (estado_t1 (antes e st)); cbn [fst snd media_temp iniciar_dma_temp];
    try (intros _; exact Hm).
  destruct (dma_temp_done (antes e st)); [|intros _; exact Hm].
  destruct (_ >=? _); cbn [fst snd media_temp]; [discriminate|intros _; exact Hm].
Qed.

Lemma run_false_media : forall cfg_temp dma_chan es st,
  (forall r, In r (snd (run cfg_temp dma_chan st es)) -> r = false) ->
  media_temp (fst (run cfg_temp dma_chan st es)) = media_temp st.
Proof.
  intros cfg_temp dma_chan es.
  induction es as [|e es IH]; intros st H; [reflexivity|].
  cbn [run] in *.
  pose proof (tick_false_media cfg_temp dma_chan st e) as Ht.
  destruct (tick cfg_temp dma_chan st e) as [st1 r].
  specialize (IH st1).
  destruct (run cfg_temp dma_chan st1 es) as [st2 rs].
  cbn [fst snd] in *.
  rewrite IH by (intros r' Hr'; apply H; right; exact Hr').
  apply Ht. apply H. left. reflexivity.
Qed.

(** C10. Before the first acquisition cycle completes (no invocation so
    far has returned true) [tarefa1_termina()] returns exactly [0.0f]:
    [media_temp] starts at [0.0f], and an invocation that does not end a
    cycle (it returns false) never writes it. *)
Theorem termina_zero_antes_do_primeiro_ciclo : forall cfg_temp dma_chan done es,
  (forall r, In r (snd (run cfg_temp dma_chan (init done) es)) -> r = false) ->
  tarefa1_termina (fst (run cfg_temp dma_chan (init done) es)) = F32.zero /\
  media_temp (init done) = F32.zero /\
  (forall st e, snd (tick cfg_temp dma_chan st e) = false ->
     media_temp (fst (tick cfg_temp dma_chan st e)) = media_temp st).
Proof.
  intros cfg_temp dma_chan done es H.
  split; [|split; [reflexivity|]].
  - unfold tarefa1_termina. rewrite run_false_media by exact H. reflexivity.
  - intros st e. apply tick_false_media.
Qed.

Lemma termina_zero_antes_do_primeiro_ciclo_witness :
  tarefa1_termina
    (fst (run 0 0 (init false)
            [ mkEntrada 1000 None; mkEntrada 501000 None;
              mkEntrada 1001000 None; mkEntrada 1501000 None ]))
  = F32.zero.
Proof.
  apply (termina_zero_antes_do_primeiro_ciclo 0 0 false
           [ mkEntrada 1000 None; mkEntrada 501000 None;
             mkEntrada 1001000 None; mkEntrada 1501000 None ]).
  lazy. intros r [H|[H|[H|[H|[]]]]]; symmetry; exact H.
Defined.

(** *** The sample count when the average is computed *)

(** With both readings below 2^63 and in order, the difference is exact. *)
Lemma absolute_time_diff_us_exact : forall from to,
  0 <= from <= to -> to < 2 ^ 63 ->
  absolute_time_diff_us from to = to - from.
Proof.
  intros from to H1 H2. unfold absolute_time_diff_us.
  rewrite Z.mod_small by lia.
  destruct (to - from <? 2 ^ 63) eqn:E; [reflexivity|].
  apply Z.ltb_ge in E. lia.
Qed.

Lemma janela_tick : forall cfg_temp dma_chan tl st e,
  janela tl st -> tl < now e < 2 ^ 63 ->
  janela (now e) (fst (tick cfg_temp dma_chan st e)) /\
  (snd (tick cfg_temp dma_chan st e) = true ->
   exists k, 1 <= k <= 250000 /\
     total_amostras (fst (tick cfg_temp dma_chan st e)) = BLOCO_AMOSTRAS * k).
Proof.
  intros cfg_temp dma_chan tl st e [Htl Hj] Hnow.
  destruct (antes_campos e st) as (He & Hi & Ht & _).
  unfold janela, tick, tarefa1_obter_media_temp.
  rewrite He in *. unfold BLOCO_AMOSTRAS, DURACAO_AMOSTRAGEM_US in *.
  destruct (estado_t1 st);
    cbn [fst snd estado_t1 total_amostras inicio_amostragem iniciar_dma_temp].
  - split; [|discriminate]. split; [lia|]. exists 0. lia.
  - rewrite Hi, Ht. split; [|discriminate]. split; [lia|].
    destruct Hj as (k & ?). exists k. lia.
  - destruct Hj as (k & Hk & Htot & Hin & Htime & Hbound).
    destruct (dma_temp_done (antes e st)).
    + rewrite Hi, Ht, Htot.
      rewrite absolute_time_diff_us_exact by lia.
      assert (Hm : (10000 * k + 10000) mod 2 ^ 32 = 10000 * (k + 1))
        by (rewrite Z.mod_small; lia).
      rewrite Z.geb_leb.
      destruct (Z.leb_spec 500000 (now e - inicio_amostragem st));
        cbn [fst snd estado_t1 total_amostras inicio_amostragem]; rewrite Hm.
      * split; [split; [lia|exact I]|]. intros _. exists (k + 1). lia.
      * split; [|discriminate]. split; [lia|]. exists (k + 1). lia.
    + cbn [fst snd]. rewrite He, Hi, Ht. split; [|discriminate].
      split; [lia|]. exists k. lia.
Qed.

Lemma janela_run : forall cfg_temp dma_chan es tl st e,
  janela tl st -> relogio_crescente tl (es ++ [e]) ->
  exists tl', janela tl' (fst (run cfg_temp dma_chan st es)) /\
              tl' < now e < 2 ^ 63.
Proof.
  intros cfg_temp dma_chan es.
  induction es as [|e0 es IH]; intros tl st e Hj Hr.
  - exists tl. split; [exact Hj|]. exact (proj1 Hr).
  - cbn [app relogio_crescente run] in *. destruct Hr as [Hnow Hr].
    destruct (janela_tick cfg_temp dma_chan tl st e0 Hj Hnow) as [Hj1 _].
    destruct (tick cfg_temp dma_chan st e0) as [st1 r].
    destruct (IH (now e0) st1 e Hj1 Hr) as (tl' & Hj' & Hlt).
    destruct (run cfg_temp dma_chan st1 es) as [st2 rs].
    exists tl'. split; assumption.
Qed.

(** The branch that returns true has just divided the sum by the count. *)
Lemma tick_true_media : forall cfg_temp dma_chan st e,
  snd (tick cfg_temp dma_chan st e) = true ->
  media_temp (fst (tick cfg_temp dma_chan st e))
  = F32.div (soma_temp (fst (tick cfg_temp dma_chan st e)))
            (F32.of_int (total_amostras (fst (tick cfg_temp dma_chan st e)))).
Proof.
  intros cfg_temp dma_chan st e.
  unfold tick, tarefa1_obter_media_temp.
  destruct (estado_t1 (antes e st)); cbn [fst snd]; try discriminate.
  destruct (dma_temp_done (antes e st)); [|discriminate].
  destruct (_ >=? _); cbn [fst snd media_temp soma_temp total_amostras];
    [intros _; reflexivity|discriminate].
Qed.

(** C9. Whenever an invocation computes the average (it returns true),
    [total_amostras] is at least [BLOCO_AMOSTRAS], hence positive, and the
    divisor of [soma_temp / total_amostras] is a positive finite float: the
    division is never by zero. The execution starts at program start, with
    any interrupts and any samples; the invocations happen at strictly
    increasing microsecond readings of the clock. *)
Theorem media_nunca_divide_por_zero : forall cfg_temp dma_chan done es e,
  relogio_crescente (-1) (es ++ [e]) ->
  let st := fst (run cfg_temp dma_chan (init done) es) in
  snd (tick cfg_temp dma_chan st e) = true ->
  let st' := fst (tick cfg_temp dma_chan st e) in
  BLOCO_AMOSTRAS <= total_amostras st' /\
  0 < total_amostras st' /\
  (exists m ex, F32.of_int (total_amostras st') = S754_finite false m ex) /\
  media_temp st' = F32.div (soma_temp st') (F32.of_int (total_amostras st')).
Proof.
  intros cfg_temp dma_chan done es e Hr st Htrue st'.
  assert (Hj0 : janela (-1) (init done)) by (split; [lia|exact I]).
  destruct (janela_run cfg_temp dma_chan es (-1) (init done) e Hj0 Hr)
    as (tl & Hj & Hnow).
  destruct (janela_tick cfg_temp dma_chan tl st e Hj Hnow) as [_ Hk].
  destruct (Hk Htrue) as (k & Hk1 & Htot).
  fold st' in Htot. unfold BLOCO_AMOSTRAS in *.
  split; [lia|]. split; [lia|]. split.
  - apply FloatFacts.of_int_pos. lia.
  - apply tick_true_media. exact Htrue.
Qed.

Lemma media_nunca_divide_por_zero_witness :
  let st := fst (run 0 0 (init false)
                   [mkEntrada 1000 None; mkEntrada 501000 None]) in
  let st' := fst (tick 0 0 st (mkEntrada 1001000 (Some Cenario.zeros))) in
  BLOCO_AMOSTRAS <= total_amostras st' /\
  0 < total_amostras st' /\
  (exists m ex, F32.of_int (total_amostras st') = S754_finite false m ex) /\
  media_temp st' = F32.div (soma_temp st') (F32.of_int (total_amostras st')).
Proof.
  apply (media_nunca_divide_por_zero 0 0 false
           [mkEntrada 1000 None; mkEntrada 501000 None]
           (mkEntrada 1001000 (Some Cenario.zeros))).
  - cbn. lia.
  - lazy. reflexivity.
Defined.

End Tarefa1Runs.

(** ** The sample converter *)

Module ConverterProps.
Import Tarefa1.

(** The literals of the converter are the binary32 values nearest to the
    decimals written in the source: each is the correctly rounded quotient
    of two integers that binary32 holds exactly. *)
Lemma literais_do_conversor :
  lit_3_3 = F32.div (F32.of_int 33) (F32.of_int 10) /\
  lit_0_706 = F32.div (F32.of_int 706) (F32.of_int 1000) /\
  lit_0_001721 = F32.div (F32.of_int 1721) (F32.of_int 1000000) /\
  lit_27_0 = F32.of_int 27 /\
  F32.one = F32.of_int 1.
Proof. vm_compute. repeat split; reflexivity. Qed.

(** The converter at the ends of the range and near 27 degrees: 437.23,
    27.14 and -1479.8 degrees Celsius. *)
Lemma convert_to_celsius_exemplos :
  convert_to_celsius 0 = S754_finite false 14327041 (-15) /\
  convert_to_celsius 876 = S754_finite false 14228354 (-19) /\
  convert_to_celsius 4095 = S754_finite true 12122482 (-13).
Proof. vm_compute. repeat split; reflexivity. Qed.

(** The comparison of [SpecFloat] orders finite values by sign, exponent
    and significand; it is transitive. *)
Lemma ltb_finite_trans : forall s1 m1 e1 s2 m2 e2 s3 m3 e3,
  F32.ltb (S754_finite s1 m1 e1) (S754_finite s2 m2 e2) = true ->
  F32.ltb (S754_finite s2 m2 e2) (S754_finite s3 m3 e3) = true ->
  F32.ltb (S754_finite s1 m1 e1) (S754_finite s3 m3 e3) = true.
Proof.
  intros s1 m1 e1 s2 m2 e2 s3 m3 e3.
  unfold F32.ltb, SFltb, SFcompare.
  change (Pos.compare_cont Eq m1 m2) with (m1 ?= m2)%positive.
  change (Pos.compare_cont Eq m2 m3) with (m2 ?= m3)%positive.
  change (Pos.compare_cont Eq m1 m3) with (m1 ?= m3)%positive.
  destruct s1, s2, s3; try discriminate; try reflexivity;
    destruct (Z.compare_spec e1 e2), (Z.compare_spec e2 e3),
             (Z.compare_spec e1 e3); try discriminate; try reflexivity;
      try lia;
    destruct (Pos.compare_spec m1 m2), (Pos.compare_spec m2 m3),
             (Pos.compare_spec m1 m3); cbn [CompOpp];
      try discriminate; try reflexivity; try lia.
Qed.

Lemma ltb_trans : forall x y z,
  finito x = true -> finito y = true -> finito z = true ->
  F32.ltb x y = true -> F32.ltb y z = true -> F32.ltb x z = true.
Proof.
  intros [| | |s1 m1 e1] [| | |s2 m2 e2] [| | |s3 m3 e3]; try discriminate.
  intros _ _ _. apply ltb_finite_trans.
Qed.

Lemma decrescente_cabeca : forall l x,
  forallb finito (x :: l) = true -> decrescente (x :: l) = true ->
  Forall (fun y => F32.ltb y x = true) l.
Proof.
  induction l as [|y l IH]; intros x Hf Hd; [constructor|].
  cbn [decrescente forallb] in *.
  apply andb_prop in Hd as [Hyx Hd].
  apply andb_prop in Hf as [Hx Hf]. pose proof Hf as Hf'.
  apply andb_prop in Hf' as [Hy Hl].
  constructor; [exact Hyx|].
  specialize (IH y Hf Hd).
  assert (Hfl : Forall (fun z => finito z = true) l)
    by (apply Forall_forall; intros z Hz;
        exact (proj1 (forallb_forall finito l) Hl z Hz)).
  clear Hd Hf Hl.
  induction IH as [|z l Hz _ IHl]; constructor.
  - inversion Hfl; subst. apply ltb_trans with y; assumption.
  - apply IHl. inversion Hfl; assumption.
Qed.

Lemma decrescente_nth : forall l d i j,
  forallb finito l = true -> decrescente l = true ->
  (i < j < length l)%nat ->
  F32.ltb (nth j l d) (nth i l d) = true.
Proof.
  induction l as [|x l IH]; intros d i j Hf Hd Hij; [cbn in Hij; lia|].
  destruct j as [|j]; [lia|]. destruct i as [|i].
  - cbn [nth]. pose proof (decrescente_cabeca l x Hf Hd) as Hall.
    rewrite Forall_forall in Hall. apply Hall. apply nth_In. cbn in Hij. lia.
  - cbn [nth]. apply IH.
    + cbn [forallb] in Hf. apply andb_prop in Hf. tauto.
    + destruct l as [|y l]; [reflexivity|].
      cbn [decrescente] in Hd. apply andb_prop in Hd. tauto.
    + cbn in Hij. lia.
Qed.

Lemma tabela_celsius_length : forall n, length (tabela_celsius n) = n.
Proof.
  intros n. unfold tabela_celsius. rewrite length_map, length_seq. reflexivity.
Qed.

Lemma tabela_celsius_nth : forall n i, (i < n)%nat ->
  nth i (tabela_celsius n) F32.zero = convert_to_celsius (Z.of_nat i).
Proof.
  intros n i H. unfold tabela_celsius.
  rewrite nth_indep with (d' := convert_to_celsius (Z.of_nat 0))
    by (rewrite length_map, length_seq; exact H).
  rewrite (map_nth (fun k => convert_to_celsius (Z.of_nat k))).
  rewrite seq_nth by exact H. reflexivity.
Qed.

(** The 4096 converted values are finite and each is below the previous
    one, by evaluation of the converter on every raw value. *)
Lemma tabela_celsius_decrescente :
  forallb finito (tabela_celsius 4096) = true /\
  decrescente (tabela_celsius 4096) = true.
Proof. vm_compute. split; reflexivity. Qed.

(** C7. For every raw value in [0, 4095] the converted temperature is a
    function of the raw value alone, and it is strictly decreasing: for
    [r1 < r2] in the range, [convert_to_celsius r1 > convert_to_celsius r2]
    in the comparison of floats. *)
Theorem convert_to_celsius_decrescente : forall r1 r2,
  0 <= r1 -> r1 < r2 -> r2 <= 4095 ->
  F32.ltb (convert_to_celsius r2) (convert_to_celsius r1) = true.
Proof.
  intros r1 r2 H0 H12 H2.
  destruct tabela_celsius_decrescente as [Hf Hd].
  pose proof (decrescente_nth (tabela_celsius 4096) F32.zero
                (Z.to_nat r1) (Z.to_nat r2) Hf Hd) as H.
  rewrite tabela_celsius_length in H.
  rewrite !tabela_celsius_nth, !Z2Nat.id in H by lia.
  apply H. lia.
Qed.

Lemma convert_to_celsius_decrescente_witness :
  F32.ltb (convert_to_celsius 877) (convert_to_celsius 876) = true.
Proof.
  apply convert_to_celsius_decrescente; lia.
Defined.

End ConverterProps.

(** ** The cyclic executor *)

Module MainProps.
Import Main.

(** *** The acquisition callback *)

(** The interrupt and the downstream callbacks leave the completion flag of
    [tarefa_1] and the latched average of the state machine alone. *)
Lemma passo_outro : forall cfg_temp chan st ev,
  outro_evento ev = true ->
  ciclo_finalizado (passo cfg_temp chan st ev) = ciclo_finalizado st /\
  Tarefa1.media_temp (t1 (passo cfg_temp chan st ev)) = Tarefa1.media_temp (t1 st).
Proof.
  intros cfg_temp chan st [buf|now|ini fim r|ini fim|ini fim|] H;
    try discriminate; cbn [passo]; [split; reflexivity| | | |];
    unfold tarefa_2, tarefa_3, tarefa_4, tarefa_5;
    repeat match goal with
           | |- context [if ?b then _ else _] => destruct b
           end; split; reflexivity.
Qed.

Lemma executa_outros : forall cfg_temp chan evs st,
  forallb outro_evento evs = true ->
  ciclo_finalizado (executa cfg_temp chan st evs) = ciclo_finalizado st /\
  Tarefa1.media_temp (t1 (executa cfg_temp chan st evs))
  = Tarefa1.media_temp (t1 st).
Proof.
  intros cfg_temp chan evs.
  induction evs as [|ev evs IH]; intros st H; [split; reflexivity|].
  cbn [forallb] in H. apply andb_prop in H as [Hev Hevs].
  unfold executa in *. cbn [fold_left].
  destruct (IH (passo cfg_temp chan st ev) Hevs) as [-> ->].
  apply passo_outro. exact Hev.
Qed.

(** C3, as the code has it. On the invocation of [tarefa_1] in which the
    state machine reports the end of a cycle, [tarefa_1] only records the
    report in [ciclo_finalizado]; [media] and the gate are as before. It is
    the next invocation of [tarefa_1] (whatever interrupts and downstream
    callbacks run in between) that copies the average into [media] and
    opens the gate, without invoking the state machine. *)
Theorem media_publicada_na_invocacao_seguinte :
  forall cfg_temp chan now st,
  ciclo_finalizado st = false ->
  snd (Tarefa1.tarefa1_obter_media_temp cfg_temp chan now (t1 st)) = true ->
  let st1 := tarefa_1 cfg_temp chan now st in
  media st1 = media st /\
  leitura_temp_concluida st1 = leitura_temp_concluida st /\
  ciclo_finalizado st1 = true /\
  t1 st1 = fst (Tarefa1.tarefa1_obter_media_temp cfg_temp chan now (t1 st)) /\
  forall evs now',
    forallb outro_evento evs = true ->
    let st2 := tarefa_1 cfg_temp chan now' (executa cfg_temp chan st1 evs) in
    media st2 = Tarefa1.tarefa1_termina (t1 st1) /\
    leitura_temp_concluida st2 = true /\
    ciclo_finalizado st2 = false /\
    t1 st2 = t1 (executa cfg_temp chan st1 evs).
Proof.
  intros cfg_temp chan now st Hc Hr st1.
  assert (H1 : st1 = tarefa_1 cfg_temp chan now st) by reflexivity.
  unfold tarefa_1 in H1. rewrite Hc in H1. cbn [negb] in H1.
  destruct (Tarefa1.tarefa1_obter_media_temp cfg_temp chan now (t1 st))
    as [t1' r]. cbn [fst snd] in *. subst r.
  rewrite H1. cbn [media leitura_temp_concluida ciclo_finalizado t1].
  repeat split.
  all: destruct (executa_outros cfg_temp chan evs
                   {| t1 := t1'; media := media st; t := t st;
                      leitura_temp_concluida := leitura_temp_concluida st;
                      ciclo_finalizado := true;
                      contador_2 := contador_2 st; contador_3 := contador_3 st;
                      contador_4 := contador_4 st; contador_5 := contador_5 st;
                      estado_5 := estado_5 st; out := out st |} H)
         as [Hcf Hm]; cbn [ciclo_finalizado t1] in Hcf, Hm;
       unfold tarefa_1; rewrite Hcf;
       cbn [negb media leitura_temp_concluida ciclo_finalizado t1];
       try reflexivity.
  unfold Tarefa1.tarefa1_termina. exact Hm.
Qed.

Lemma media_publicada_na_invocacao_seguinte_witness :
  let st1 := tarefa_1 0 0 1001000 Cenario.antes_do_fim in
  let st2 := tarefa_1 0 0 1501000 (executa 0 0 st1 [ev_tarefa_5]) in
  media st2 = Tarefa1.tarefa1_termina (t1 st1) /\
  leitura_temp_concluida st2 = true.
Proof.
  intros st1 st2.
  destruct (media_publicada_na_invocacao_seguinte 0 0 1001000
              Cenario.antes_do_fim)
    as (_ & _ & _ & _ & Hnext); [lazy; reflexivity | lazy; reflexivity |].
  destruct (Hnext [ev_tarefa_5] 1501000 eq_refl) as (H1 & H2 & _).
  split; [exact H1 | exact H2].
Defined.

Lemma tarefa_1_t1 : forall cfg_temp chan now st,
  ciclo_finalizado st = false ->
  t1 (tarefa_1 cfg_temp chan now st)
  = fst (Tarefa1.tarefa1_obter_media_temp cfg_temp chan now (t1 st)).
Proof.
  intros cfg_temp chan now st H. unfold tarefa_1. rewrite H. cbn [negb].
  destruct (Tarefa1.tarefa1_obter_media_temp cfg_temp chan now (t1 st)).
  reflexivity.
Qed.

(** The average the state machine has latched at the end of the cycle of
    the scenario. *)
Lemma media_temp_apos_ciclo :
  Tarefa1.tarefa1_termina (t1 (tarefa_1 0 0 1001000 Cenario.antes_do_fim))
  = S754_finite false 14327374 (-15).
Proof.
  unfold Tarefa1.tarefa1_termina.
  rewrite tarefa_1_t1 by (lazy; reflexivity).
  rewrite Tarefa1Props.aguardando_fim_media by (lazy; reflexivity).
  exact Tarefa1Props.media_do_bloco_de_zeros.
Qed.

(** C3 as stated fails: at program start, after the window has opened, the
    transfer has been started and has completed, the invocation of
    [tarefa_1] in which the state machine reports the end of the cycle
    leaves [media] at [0.0f], different from the average just computed, and
    leaves the gate closed. *)
Lemma media_nao_publicada_na_mesma_invocacao :
  let st := Cenario.antes_do_fim in
  ciclo_finalizado st = false /\
  snd (Tarefa1.tarefa1_obter_media_temp 0 0 1001000 (t1 st)) = true /\
  let st' := tarefa_1 0 0 1001000 st in
  media st' = F32.zero /\
  media st' <> Tarefa1.tarefa1_termina (t1 st') /\
  leitura_temp_concluida st' = false.
Proof.
  cbv zeta.
  split; [lazy; reflexivity|]. split; [lazy; reflexivity|].
  split; [lazy; reflexivity|]. split; [|lazy; reflexivity].
  rewrite media_temp_apos_ciclo.
  replace (media (tarefa_1 0 0 1001000 Cenario.antes_do_fim)) with F32.zero
    by (lazy; reflexivity).
  discriminate.
Qed.

(** *** The readiness gate *)

(** No callback and no interrupt ever closes the gate. *)
Lemma passo_mantem_aberta : forall cfg_temp chan st ev,
  leitura_temp_concluida st = true ->
  leitura_temp_concluida (passo cfg_temp chan st ev) = true.
Proof.
  intros cfg_temp chan st [buf|now|ini fim r|ini fim|ini fim|] H;
    cbn [passo]; unfold com_t1, tarefa_1, tarefa_2, tarefa_3, tarefa_4, tarefa_5;
    repeat match goal with
           | |- context [if ?b then _ else _] => destruct b
           | |- context [let '(_, _) := ?p in _] => destruct p
           end; cbn [leitura_temp_concluida]; try assumption; reflexivity.
Qed.

(** A closed gate opens exactly at an invocation of [tarefa_1] that
    publishes an average. *)
Lemma passo_abre : forall cfg_temp chan st ev,
  leitura_temp_concluida st = false ->
  leitura_temp_concluida (passo cfg_temp chan st ev)
  = match ev with
    | ev_tarefa_1 _ => ciclo_finalizado st
    | _ => false
    end.
Proof.
  intros cfg_temp chan st [buf|now|ini fim r|ini fim|ini fim|] H;
    cbn [passo]; unfold com_t1, tarefa_1, tarefa_2, tarefa_3, tarefa_4, tarefa_5;
    rewrite ?H; cbn [negb leitura_temp_concluida];
    try (rewrite ?H; reflexivity).
  destruct (ciclo_finalizado st); cbn [negb]; [reflexivity|].
  destruct (Tarefa1.tarefa1_obter_media_temp _ _ _ _). reflexivity.
Qed.

Lemma historia_cons : forall cfg_temp chan st evs,
  exists l, historia cfg_temp chan st evs = st :: l.
Proof.
  intros cfg_temp chan st [|ev evs]; cbn [historia]; eexists; reflexivity.
Qed.

Lemma gate_historia : forall cfg_temp chan evs st,
  let h := map leitura_temp_concluida (historia cfg_temp chan st evs) in
  descidas h = O /\
  subidas h = (if leitura_temp_concluida st then O
               else Nat.min 1 (leituras_publicadas cfg_temp chan st evs)) /\
  leitura_temp_concluida (executa cfg_temp chan st evs)
  = (leitura_temp_concluida st
     || (0 <? leituras_publicadas cfg_temp chan st evs)%nat).
Proof.
  intros cfg_temp chan evs.
  induction evs as [|ev evs IH]; intros st.
  - cbn. destruct (leitura_temp_concluida st); repeat split.
  - cbn [historia leituras_publicadas executa fold_left]. cbv zeta.
    specialize (IH (passo cfg_temp chan st ev)). cbv zeta in IH.
    fold (executa cfg_temp chan (passo cfg_temp chan st ev) evs).
    destruct (historia_cons cfg_temp chan (passo cfg_temp chan st ev) evs)
      as [l Hl].
    rewrite Hl in *. cbn [map subidas descidas] in *.
    destruct IH as (IHd & IHs & IHe). rewrite IHd, IHs, IHe.
    destruct (leitura_temp_concluida st) eqn:Hg.
    + rewrite (passo_mantem_aberta cfg_temp chan st ev Hg). repeat split.
    + rewrite (passo_abre cfg_temp chan st ev Hg).
      destruct ev as [buf|now|ini fim r|ini fim|ini fim|];
        cbn [negb andb orb Nat.add]; try (repeat split; reflexivity).
      destruct (ciclo_finalizado st); cbn [negb andb orb Nat.add];
        repeat split; reflexivity.
Qed.

(** Along any execution from program start the gate never goes from true
    to false, and it goes from false to true once if some invocation of
    [tarefa_1] took the publishing branch, and not at all otherwise. *)
Lemma gate_desde_o_inicio : forall cfg_temp chan done evs,
  let h := map leitura_temp_concluida
               (historia cfg_temp chan (init done) evs) in
  let n := leituras_publicadas cfg_temp chan (init done) evs in
  leitura_temp_concluida (init done) = false /\
  descidas h = O /\
  subidas h = Nat.min 1 n /\
  leitura_temp_concluida (executa cfg_temp chan (init done) evs)
  = (0 <? n)%nat /\
  (forall st ev, leitura_temp_concluida st = true ->
                 leitura_temp_concluida (passo cfg_temp chan st ev) = true).
Proof.
  intros cfg_temp chan done evs h n.
  destruct (gate_historia cfg_temp chan evs (init done)) as (Hd & Hs & He).
  split; [reflexivity|]. split; [exact Hd|]. split; [exact Hs|].
  split; [exact He|]. intros st ev. apply passo_mantem_aberta.
Qed.

(** Two complete acquisition cycles, both published: the gate opens
    once. *)
Lemma dois_ciclos_uma_subida :
  let evs := [ ev_tarefa_1 1000; ev_tarefa_1 501000;
               ev_irq_dma Cenario.zeros; ev_tarefa_1 1001000;
               ev_tarefa_1 1501000;
               ev_tarefa_1 2001000; ev_tarefa_1 2501000;
               ev_irq_dma Cenario.zeros; ev_tarefa_1 3001000;
               ev_tarefa_1 3501000 ] in
  leituras_publicadas 0 0 (init false) evs = 2%nat /\
  subidas (map leitura_temp_concluida (historia 0 0 (init false) evs)) = 1%nat.
Proof. lazy. split; reflexivity. Qed.

(** *** The throttles of the downstream callbacks *)

Lemma conta_app : forall p st l st',
  out st' = out st ++ l ->
  conta p st' = (conta p st + length (filter p l))%nat.
Proof.
  intros p st l st' H. unfold conta. rewrite H, filter_app, length_app.
  reflexivity.
Qed.

Ltac divisor :=
  match goal with
  | Hg : leitura_temp_concluida ?st = true |- _ =>
      rewrite Hg; cbn [negb]
  end;
  match goal with
  | |- context [?c + 1 <? 3] => destruct (Z.ltb_spec (c + 1) 3)
  end;
  repeat match goal with
         | |- context [if ?b then _ else _] => destruct b
         end;
  unfold divisor_3;
  cbn [leitura_temp_concluida contador_2 contador_3 contador_4 contador_5];
  (split; [reflexivity|]); (split; [lia|]);
  [ right; repeat split; try lia; reflexivity
  | left; split; [lia|]; split; [reflexivity|];
    unfold execucoes_2, execucoes_3, execucoes_4, execucoes_5;
    erewrite conta_app by reflexivity; cbn; lia .. ].

Lemma tarefa_2_divisor : forall ini fim r st,
  leitura_temp_concluida st = true -> 0 <= contador_2 st < 3 ->
  divisor_3 contador_2 execucoes_2 st (tarefa_2 ini fim r st).
Proof. intros ini fim r st Hg Hc. unfold tarefa_2. divisor. Qed.

Lemma tarefa_3_divisor : forall ini fim st,
  leitura_temp_concluida st = true -> 0 <= contador_3 st < 3 ->
  divisor_3 contador_3 execucoes_3 st (tarefa_3 ini fim st).
Proof. intros ini fim st Hg Hc. unfold tarefa_3. divisor. Qed.

Lemma tarefa_4_divisor : forall ini fim st,
  leitura_temp_concluida st = true -> 0 <= contador_4 st < 3 ->
  divisor_3 contador_4 execucoes_4 st (tarefa_4 ini fim st).
Proof. intros ini fim st Hg Hc. unfold tarefa_4. divisor. Qed.

Lemma tarefa_5_divisor : forall st,
  leitura_temp_concluida st = true -> 0 <= contador_5 st < 3 ->
  divisor_3 contador_5 execucoes_5 st (tarefa_5 st).
Proof. intros st Hg Hc. unfold tarefa_5. divisor. Qed.

(** The other callbacks and the interrupt leave a throttle alone. *)
Ltac moldura :=
  intros cfg_temp chan st [buf|now|ini fim r|ini fim|ini fim|] H;
  try discriminate H; cbn [passo];
  unfold com_t1, tarefa_1, tarefa_2, tarefa_3, tarefa_4, tarefa_5,
         execucoes_2, execucoes_3, execucoes_4, execucoes_5;
  repeat match goal with
         | |- context [if ?b then _ else _] => destruct b
         | |- context [let '(_, _) := ?p in _] => destruct p
         end;
  (split; [reflexivity|]);
  try reflexivity;
  (erewrite conta_app by reflexivity; cbn; lia).

Lemma tarefa_2_moldura : forall cfg_temp chan st ev,
  e_tarefa_2 ev = false ->
  contador_2 (passo cfg_temp chan st ev) = contador_2 st /\
  execucoes_2 (passo cfg_temp chan st ev) = execucoes_2 st.
Proof. moldura. Qed.

Lemma tarefa_3_moldura : forall cfg_temp chan st ev,
  e_tarefa_3 ev = false ->
  contador_3 (passo cfg_temp chan st ev) = contador_3 st /\
  execucoes_3 (passo cfg_temp chan st ev) = execucoes_3 st.
Proof. moldura. Qed.

Lemma tarefa_4_moldura : forall cfg_temp chan st ev,
  e_tarefa_4 ev = false ->
  contador_4 (passo cfg_temp chan st ev) = contador_4 st /\
  execucoes_4 (passo cfg_temp chan st ev) = execucoes_4 st.
Proof. moldura. Qed.

Lemma tarefa_5_moldura : forall cfg_temp chan st ev,
  e_tarefa_5 ev = false ->
  contador_5 (passo cfg_temp chan st ev) = contador_5 st /\
  execucoes_5 (passo cfg_temp chan st ev) = execucoes_5 st.
Proof. moldura. Qed.

(** With the gate closed the downstream callbacks do nothing. *)
Lemma tarefas_com_leitura_pendente : forall st,
  leitura_temp_concluida st = false ->
  (forall ini fim r, tarefa_2 ini fim r st = st) /\
  (forall ini fim, tarefa_3 ini fim st = st) /\
  (forall ini fim, tarefa_4 ini fim st = st) /\
  tarefa_5 st = st.
Proof.
  intros st H. unfold tarefa_2, tarefa_3, tarefa_4, tarefa_5. rewrite H.
  repeat split.
Qed.

Lemma passo_contadores : forall cfg_temp chan st ev,
  contadores_em_faixa st -> contadores_em_faixa (passo cfg_temp chan st ev).
Proof.
  intros cfg_temp chan st [buf|now|ini fim r|ini fim|ini fim|] H;
    unfold contadores_em_faixa in *; cbn [passo];
    unfold com_t1, tarefa_1, tarefa_2, tarefa_3, tarefa_4, tarefa_5;
    repeat match goal with
           | |- context [?c + 1 <? 3] => destruct (Z.ltb_spec (c + 1) 3)
           | |- context [if ?b then _ else _] => destruct b
           | |- context [let '(_, _) := ?p in _] => destruct p
           end;
    cbn [contador_2 contador_3 contador_4 contador_5]; lia.
Qed.

Lemma executa_contadores : forall cfg_temp chan done evs,
  contadores_em_faixa (executa cfg_temp chan (init done) evs).
Proof.
  intros cfg_temp chan done evs.
  assert (H : contadores_em_faixa (init done))
    by (unfold contadores_em_faixa; cbn; lia).
  revert H. generalize (init done). unfold executa.
  induction evs as [|ev evs IH]; intros st H; [exact H|].
  cbn [fold_left]. apply IH. apply passo_contadores. exact H.
Qed.

Section Divisor.

Variables cfg_temp chan : Z.
Variable contador : state -> Z.
Variable execucoes : state -> nat.
Variable p : evento -> bool.

Hypothesis propria : forall st ev,
  p ev = true ->
  leitura_temp_concluida st = true -> 0 <= contador st < 3 ->
  divisor_3 contador execucoes st (passo cfg_temp chan st ev).

Hypothesis alheia : forall st ev,
  p ev = false ->
  contador (passo cfg_temp chan st ev) = contador st /\
  execucoes (passo cfg_temp chan st ev) = execucoes st.

(** Three times the number of payload runs plus the counter grows by one
    at each invocation of the callback and not otherwise. *)
Lemma divisor_linear : forall evs st,
  leitura_temp_concluida st = true -> 0 <= contador st < 3 ->
  let st' := executa cfg_temp chan st evs in
  0 <= contador st' < 3 /\
  3 * Z.of_nat (execucoes st') + contador st'
  = 3 * Z.of_nat (execucoes st) + contador st + invocacoes p evs.
Proof.
  induction evs as [|ev evs IH]; intros st Hg Hc.
  - cbn. unfold invocacoes. cbn. lia.
  - unfold executa in *. cbn [fold_left]. cbv zeta in *.
    pose proof (passo_mantem_aberta cfg_temp chan st ev Hg) as Hg'.
    unfold invocacoes in *. cbn [filter].
    destruct (p ev) eqn:Hp.
    + destruct (propria st ev Hp Hg Hc) as (_ & Hc' & Hd).
      destruct (IH _ Hg' Hc') as [Hr Hl]. split; [exact Hr|].
      rewrite Hl. cbn [length]. lia.
    + destruct (alheia st ev Hp) as [Hc' He'].
      destruct (IH (passo cfg_temp chan st ev) Hg' ltac:(lia)) as [Hr Hl].
      split; [exact Hr|]. rewrite Hl, Hc', He'. reflexivity.
Qed.

Lemma divisor_execucao : forall evs st,
  leitura_temp_concluida st = true -> 0 <= contador st < 3 ->
  divisor_em_execucao cfg_temp chan contador execucoes p st evs.
Proof.
  intros evs st Hg Hc. unfold divisor_em_execucao. cbv zeta.
  destruct (divisor_linear evs st Hg Hc) as [Hr Hl].
  set (st' := executa cfg_temp chan st evs) in *.
  set (n := invocacoes p evs) in *.
  assert (Hn : 0 <= n) by (subst n; unfold invocacoes; lia).
  assert (Hq : (contador st + n) / 3
               = Z.of_nat (execucoes st') - Z.of_nat (execucoes st)).
  { symmetry. apply Z.div_unique with (contador st'); lia. }
  assert (Hm : (contador st + n) mod 3 = contador st').
  { symmetry. apply Z.mod_unique with
      (Z.of_nat (execucoes st') - Z.of_nat (execucoes st)); lia. }
  split; [intros ev Hp; apply propria; assumption|].
  split; [symmetry; exact Hm|]. split; [lia|].
  intros H3. lia.
Qed.

End Divisor.

(** The four throttles over an execution that starts with the gate open
    and the counters in range. *)
Lemma divisores_com_leitura : forall cfg_temp chan st evs,
  leitura_temp_concluida st = true ->
  0 <= contador_2 st < 3 -> 0 <= contador_3 st < 3 ->
  0 <= contador_4 st < 3 -> 0 <= contador_5 st < 3 ->
  divisor_em_execucao cfg_temp chan contador_2 execucoes_2 e_tarefa_2 st evs /\
  divisor_em_execucao cfg_temp chan contador_3 execucoes_3 e_tarefa_3 st evs /\
  divisor_em_execucao cfg_temp chan contador_4 execucoes_4 e_tarefa_4 st evs /\
  divisor_em_execucao cfg_temp chan contador_5 execucoes_5 e_tarefa_5 st evs.
Proof.
  intros cfg_temp chan st evs Hg H2 H3 H4 H5.
  split; [|split; [|split]].
  - apply divisor_execucao; try assumption.
    + intros s [buf|now|ini fim r|ini fim|ini fim|] Hp; try discriminate Hp.
      apply tarefa_2_divisor.
    + apply tarefa_2_moldura.
  - apply divisor_execucao; try assumption.
    + intros s [buf|now|ini fim r|ini fim|ini fim|] Hp; try discriminate Hp.
      apply tarefa_3_divisor.
    + apply tarefa_3_moldura.
  - apply divisor_execucao; try assumption.
    + intros s [buf|now|ini fim r|ini fim|ini fim|] Hp; try discriminate Hp.
      apply tarefa_4_divisor.
    + apply tarefa_4_moldura.
  - apply divisor_execucao; try assumption.
    + intros s [buf|now|ini fim r|ini fim|ini fim|] Hp; try discriminate Hp.
      apply tarefa_5_divisor.
    + apply tarefa_5_moldura.
Qed.

(** While the gate is closed the four counters are at 0. *)
Lemma fechada_contadores : forall cfg_temp chan st ev,
  (leitura_temp_concluida st = false -> Complementos.contadores_em_zero st) ->
  leitura_temp_concluida (passo cfg_temp chan st ev) = false ->
  Complementos.contadores_em_zero (passo cfg_temp chan st ev).
Proof.
  intros cfg_temp chan st ev Hinv Hg'.
  assert (Hg : leitura_temp_concluida st = false).
  { destruct (leitura_temp_concluida st) eqn:E; [|reflexivity].
    rewrite (passo_mantem_aberta cfg_temp chan st ev E) in Hg'.
    discriminate Hg'. }
  specialize (Hinv Hg).
  destruct (Complementos.e_jusante ev) eqn:Hj.
  - destruct (tarefas_com_leitura_pendente st Hg) as (T2 & T3 & T4 & T5).
    destruct ev as [buf|now|ini fim r|ini fim|ini fim|];
      try discriminate Hj; cbn [passo]; rewrite ?T2, ?T3, ?T4, ?T5;
      exact Hinv.
  - assert (H2 : e_tarefa_2 ev = false)
      by (destruct ev; try reflexivity; discriminate Hj).
    assert (H3 : e_tarefa_3 ev = false)
      by (destruct ev; try reflexivity; discriminate Hj).
    assert (H4 : e_tarefa_4 ev = false)
      by (destruct ev; try reflexivity; discriminate Hj).
    assert (H5 : e_tarefa_5 ev = false)
      by (destruct ev; try reflexivity; discriminate Hj).
    destruct (tarefa_2_moldura cfg_temp chan st ev H2) as [C2 _].
    destruct (tarefa_3_moldura cfg_temp chan st ev H3) as [C3 _].
    destruct (tarefa_4_moldura cfg_temp chan st ev H4) as [C4 _].
    destruct (tarefa_5_moldura cfg_temp chan st ev H5) as [C5 _].
    unfold Complementos.contadores_em_zero in *.
    rewrite C2, C3, C4, C5. exact Hinv.
Qed.

Lemma executa_fechada : forall cfg_temp chan done evs,
  leitura_temp_concluida (executa cfg_temp chan (init done) evs) = false ->
  Complementos.contadores_em_zero (executa cfg_temp chan (init done) evs).
Proof.
  intros cfg_temp chan done evs.
  assert (H0 : leitura_temp_concluida (init done) = false ->
               Complementos.contadores_em_zero (init done))
    by (intros _; repeat split).
  revert H0. generalize (init done). unfold executa.
  induction evs as [|ev evs IH]; intros st H0; [exact H0|].
  cbn [fold_left]. apply IH. apply fechada_contadores. exact H0.
Qed.

(** C5, as the code has it. With the gate open, each of the four
    downstream callbacks keeps its counter in [0, 3); an invocation either
    runs the payload and leaves the counter at 0 (when the counter was 2)
    or advances the counter by one without running the payload; across any
    three invocations of a callback, whatever else runs in between, its
    payload runs exactly once and its counter ends where it started. From
    program start the counters are always in [0, 3) and stay at 0 while the
    gate is closed, so the first three invocations of each callback after
    the invocation of [tarefa_1] that opens the gate start from counter 0,
    run the payload exactly once and end at counter 0. *)
Theorem divisor_das_tarefas : forall cfg_temp chan,
  (forall st evs,
     leitura_temp_concluida st = true ->
     0 <= contador_2 st < 3 -> 0 <= contador_3 st < 3 ->
     0 <= contador_4 st < 3 -> 0 <= contador_5 st < 3 ->
     divisor_em_execucao cfg_temp chan contador_2 execucoes_2 e_tarefa_2 st evs /\
     divisor_em_execucao cfg_temp chan contador_3 execucoes_3 e_tarefa_3 st evs /\
     divisor_em_execucao cfg_temp chan contador_4 execucoes_4 e_tarefa_4 st evs /\
     divisor_em_execucao cfg_temp chan contador_5 execucoes_5 e_tarefa_5 st evs) /\
  (forall done evs0,
     let s := executa cfg_temp chan (init done) evs0 in
     contadores_em_faixa s /\
     (leitura_temp_concluida s = false -> Complementos.contadores_em_zero s)) /\
  (forall done evs0 now evs,
     let s := executa cfg_temp chan (init done) evs0 in
     let s1 := tarefa_1 cfg_temp chan now s in
     leitura_temp_concluida s = false ->
     leitura_temp_concluida s1 = true ->
     (divisor_em_execucao cfg_temp chan contador_2 execucoes_2 e_tarefa_2 s1 evs /\
      divisor_em_execucao cfg_temp chan contador_3 execucoes_3 e_tarefa_3 s1 evs /\
      divisor_em_execucao cfg_temp chan contador_4 execucoes_4 e_tarefa_4 s1 evs /\
      divisor_em_execucao cfg_temp chan contador_5 execucoes_5 e_tarefa_5 s1 evs) /\
     Complementos.tres_desde_zero cfg_temp chan contador_2 execucoes_2
       e_tarefa_2 s1 evs /\
     Complementos.tres_desde_zero cfg_temp chan contador_3 execucoes_3
       e_tarefa_3 s1 evs /\
     Complementos.tres_desde_zero cfg_temp chan contador_4 execucoes_4
       e_tarefa_4 s1 evs /\
     Complementos.tres_desde_zero cfg_temp chan contador_5 execucoes_5
       e_tarefa_5 s1 evs).
Proof.
  intros cfg_temp chan.
  split; [intros st evs; apply divisores_com_leitura|].
  split.
  - intros done evs0 s. split; [apply executa_contadores|].
    apply executa_fechada.
  - intros done evs0 now evs s s1 Hg Hg1.
    pose proof (executa_fechada cfg_temp chan done evs0 Hg) as Hz.
    fold s in Hz.
    destruct (tarefa_2_moldura cfg_temp chan s (ev_tarefa_1 now) eq_refl)
      as [C2 _].
    destruct (tarefa_3_moldura cfg_temp chan s (ev_tarefa_1 now) eq_refl)
      as [C3 _].
    destruct (tarefa_4_moldura cfg_temp chan s (ev_tarefa_1 now) eq_refl)
      as [C4 _].
    destruct (tarefa_5_moldura cfg_temp chan s (ev_tarefa_1 now) eq_refl)
      as [C5 _].
    cbn [passo] in C2, C3, C4, C5. fold s1 in C2, C3, C4, C5.
    destruct Hz as (Z2 & Z3 & Z4 & Z5).
    rewrite Z2 in C2. rewrite Z3 in C3. rewrite Z4 in C4. rewrite Z5 in C5.
    destruct (divisores_com_leitura cfg_temp chan s1 evs Hg1
                ltac:(lia) ltac:(lia) ltac:(lia) ltac:(lia))
      as (D2 & D3 & D4 & D5).
    split; [split; [exact D2|split; [exact D3|split; [exact D4|exact D5]]]|].
    unfold Complementos.tres_desde_zero.
    destruct D2 as (_ & _ & _ & T2). destruct D3 as (_ & _ & _ & T3).
    destruct D4 as (_ & _ & _ & T4). destruct D5 as (_ & _ & _ & T5).
    rewrite C2 in T2. rewrite C3 in T3. rewrite C4 in T4. rewrite C5 in T5.
    repeat split; try assumption;
      first [ apply T2 | apply T3 | apply T4 | apply T5 ]; assumption.
Qed.

Lemma divisor_das_tarefas_witness :
  let s := executa 0 0 (init false)
             [ ev_tarefa_1 1000; ev_tarefa_1 501000;
               ev_irq_dma Cenario.zeros; ev_tarefa_1 1001000 ] in
  let s1 := tarefa_1 0 0 1501000 s in
  Complementos.tres_desde_zero 0 0 contador_2 execucoes_2 e_tarefa_2 s1
    [ ev_tarefa_2 1501010 1501020 1; ev_tarefa_5; ev_tarefa_1 2001000;
      ev_tarefa_2 2001010 2001020 1; ev_tarefa_3 2001030 2001040;
      ev_tarefa_2 2501010 2501020 1 ].
Proof.
  intros s s1.
  assert (Hg : leitura_temp_concluida s = false) by (lazy; reflexivity).
  assert (Hg1 : leitura_temp_concluida s1 = true) by (lazy; reflexivity).
  destruct (divisor_das_tarefas 0 0) as (_ & _ & H).
  destruct (H false
              [ ev_tarefa_1 1000; ev_tarefa_1 501000;
                ev_irq_dma Cenario.zeros; ev_tarefa_1 1001000 ]
              1501000
              [ ev_tarefa_2 1501010 1501020 1; ev_tarefa_5;
                ev_tarefa_1 2001000; ev_tarefa_2 2001010 2001020 1;
                ev_tarefa_3 2001030 2001040; ev_tarefa_2 2501010 2501020 1 ]
              Hg Hg1) as (_ & T2 & _).
  exact T2.
Defined.

(** C5 as stated fails for three consecutive invocations that do not start
    from counter 0. From program start, after one acquisition cycle has
    been published and [tarefa_2] has been invoked once, the gate is open
    and the counter of [tarefa_2] is 1; three more invocations of
    [tarefa_2] run its payload exactly once and leave the counter at 1,
    not at 0. *)
Lemma contador_apos_tres_invocacoes_nao_e_zero :
  let st := Cenario.contador_em_1 in
  let st3 := tarefa_2 3001010 3001020 1
               (tarefa_2 2501010 2501020 1
                  (tarefa_2 2001010 2001020 1 st)) in
  leitura_temp_concluida st = true /\
  contador_2 st = 1 /\
  execucoes_2 st3 = S (execucoes_2 st) /\
  contador_2 st3 = 1 /\
  contador_2 st3 <> 0.
Proof.
  lazy. repeat split. discriminate.
Qed.

End MainProps.

(** ** The precision of the running sum *)

Module AccumulatorProps.
Import Tarefa1.

Lemma add_bits : forall x y,
  F32.sig_bits x <= F32.prec -> F32.sig_bits y <= F32.prec ->
  F32.sig_bits (F32.add x y) <= F32.prec.
Proof.
  intros x y. unfold F32.add, F32.prec.
  apply FloatFacts.SFadd_bits. lia.
Qed.

(** The converter returns a binary32 value. *)
Lemma convert_to_celsius_bits : forall raw,
  F32.sig_bits (convert_to_celsius raw) <= F32.prec.
Proof.
  intros raw. unfold convert_to_celsius, F32.sub, F32.div, F32.prec.
  apply FloatFacts.SFsub_bits; [lia|cbn; lia|].
  apply FloatFacts.SFdiv_bits. lia.
Qed.

Lemma soma_bloco_bits : forall buf n i soma,
  F32.sig_bits soma <= F32.prec ->
  F32.sig_bits (soma_bloco buf n i soma) <= F32.prec.
Proof.
  intros buf n. induction n as [|n IH]; intros i soma H; [exact H|].
  cbn [soma_bloco]. apply IH. apply add_bits; [exact H|].
  apply convert_to_celsius_bits.
Qed.

Lemma tick_soma_bits : forall cfg_temp dma_chan st e,
  F32.sig_bits (soma_temp st) <= F32.prec ->
  F32.sig_bits (soma_temp (fst (tick cfg_temp dma_chan st e))) <= F32.prec.
Proof.
  intros cfg_temp dma_chan st e H.
  assert (Ha : soma_temp (antes e st) = soma_temp st)
    by (unfold antes; destruct (irq e); reflexivity).
  unfold tick, tarefa1_obter_media_temp.
  destruct (estado_t1 (antes e st));
    cbn [fst soma_temp iniciar_dma_temp]; rewrite ?Ha; try exact H.
  - unfold F32.prec. cbn. lia.
  - destruct (dma_temp_done (antes e st)); [|cbn [fst]; rewrite ?Ha; exact H].
    destruct (_ >=? _); cbn [fst soma_temp]; rewrite ?Ha;
      apply soma_bloco_bits; exact H.
Qed.

Lemma run_soma_bits : forall cfg_temp dma_chan es st,
  F32.sig_bits (soma_temp st) <= F32.prec ->
  F32.sig_bits (soma_temp (fst (run cfg_temp dma_chan st es))) <= F32.prec.
Proof.
  intros cfg_temp dma_chan es.
  induction es as [|e es IH]; intros st H; [exact H|].
  cbn [run].
  pose proof (tick_soma_bits cfg_temp dma_chan st e H) as Ht.
  destruct (tick cfg_temp dma_chan st e) as [st1 r]. cbn [fst] in Ht.
  specialize (IH st1 Ht).
  destruct (run cfg_temp dma_chan st1 es) as [st2 rs]. exact IH.
Qed.

(** The running sum after a block, in the state machine. *)
Lemma aguardando_soma : forall cfg_temp dma_chan now st,
  estado_t1 st = ESTADO_AGUARDANDO_DMA ->
  dma_temp_done st = true ->
  length (buffer_temp st) = Z.to_nat BLOCO_AMOSTRAS ->
  soma_temp (fst (tarefa1_obter_media_temp cfg_temp dma_chan now st))
  = soma_amostras (buffer_temp st) (soma_temp st).
Proof.
  intros cfg_temp dma_chan now st He Hd Hl.
  unfold tarefa1_obter_media_temp. rewrite He, Hd.
  rewrite (Tarefa1Props.soma_bloco_buffer _ _ Hl).
  destruct (_ >=? _); reflexivity.
Qed.

(** C2, as the code has it. [soma_temp] is a [float], the type of the
    converted sample, not a wider one: along any execution from program
    start it carries at most 24 significant bits, as every converted sample
    does, and a completed block adds each converted sample to it with a
    binary32 addition. *)
Theorem soma_temp_precisao_simples : forall cfg_temp dma_chan done es e,
  let st := antes e (fst (run cfg_temp dma_chan (init done) es)) in
  estado_t1 st = ESTADO_AGUARDANDO_DMA ->
  dma_temp_done st = true ->
  length (buffer_temp st) = Z.to_nat BLOCO_AMOSTRAS ->
  let st' := fst (tarefa1_obter_media_temp cfg_temp dma_chan (now e) st) in
  soma_temp st'
  = fold_left (fun s raw => F32.add s (convert_to_celsius raw))
              (buffer_temp st) (soma_temp st) /\
  F32.sig_bits (soma_temp st) <= 24 /\
  F32.sig_bits (soma_temp st') <= 24 /\
  (forall raw, F32.sig_bits (convert_to_celsius raw) <= 24).
Proof.
  intros cfg_temp dma_chan done es e st He Hd Hl st'.
  assert (H0 : F32.sig_bits (soma_temp st) <= F32.prec).
  { subst st. unfold antes. destruct (irq e); cbn [soma_temp irq_dma];
      apply run_soma_bits; cbn; unfold F32.prec; lia. }
  split; [exact (aguardando_soma cfg_temp dma_chan (now e) st He Hd Hl)|].
  split; [exact H0|]. split; [|exact convert_to_celsius_bits].
  subst st'.
  rewrite (aguardando_soma cfg_temp dma_chan (now e) st He Hd Hl).
  rewrite <- (Tarefa1Props.soma_bloco_buffer _ _ Hl).
  apply soma_bloco_bits. exact H0.
Qed.

Lemma soma_temp_precisao_simples_witness :
  let st := antes (mkEntrada 1001000 (Some Cenario.zeros))
              (fst (run 0 0 (init false)
                      [mkEntrada 1000 None; mkEntrada 501000 None])) in
  let st' := fst (tarefa1_obter_media_temp 0 0 1001000 st) in
  soma_temp st'
  = fold_left (fun s raw => F32.add s (convert_to_celsius raw))
              (buffer_temp st) (soma_temp st) /\
  F32.sig_bits (soma_temp st) <= 24 /\
  F32.sig_bits (soma_temp st') <= 24 /\
  (forall raw, F32.sig_bits (convert_to_celsius raw) <= 24).
Proof.
  apply (soma_temp_precisao_simples 0 0 false
           [mkEntrada 1000 None; mkEntrada 501000 None]
           (mkEntrada 1001000 (Some Cenario.zeros)));
    lazy; reflexivity.
Defined.

(** The two sums of a block of zeros from zero: in binary32 as the code
    computes it, and with a float64 accumulator. *)
Lemma soma_zeros_float :
  soma_amostras Cenario.zeros F32.zero = S754_finite false 8744735 (-1).
Proof. vm_compute. reflexivity. Qed.

Lemma soma_zeros_float64 :
  soma_amostras_float64 Cenario.zeros (F64.of_float F32.zero)
  = S754_finite false 4694684794880000 (-30).
Proof. vm_compute. reflexivity. Qed.

(** C2 as stated fails: on a completed block of zeros, accumulated from
    [0.0f], the running sum of the code is 4372367.5, where an accumulator
    of type float64 would hold 4372265.93, the exact sum of the 10000
    converted samples. *)
Lemma soma_temp_nao_e_float64 :
  let st := Cenario.aguardando in
  let st' := fst (tarefa1_obter_media_temp 0 0 500000 st) in
  soma_temp st' = S754_finite false 8744735 (-1) /\
  soma_amostras_float64 (buffer_temp st) (F64.of_float (soma_temp st))
  = S754_finite false 4694684794880000 (-30) /\
  F64.of_float (soma_temp st')
  <> soma_amostras_float64 (buffer_temp st) (F64.of_float (soma_temp st)).
Proof.
  cbv zeta.
  rewrite (aguardando_soma 0 0 500000 Cenario.aguardando eq_refl eq_refl eq_refl).
  change (buffer_temp Cenario.aguardando) with Cenario.zeros.
  change (soma_temp Cenario.aguardando) with F32.zero.
  rewrite soma_zeros_float, soma_zeros_float64.
  repeat split. vm_compute. discriminate.
Qed.

End AccumulatorProps.

(** ** The acquisition state machine: stalls, driver calls, whole cycles *)

Module Tarefa1Mais.
Import Tarefa1 Complementos.

(** *** The three branches, as steps of an execution *)

Lemma tick_parado : forall cfg_temp dma_chan st e,
  estado_t1 st = ESTADO_PARADO ->
  tick cfg_temp dma_chan st e
  = ({| estado_t1 := ESTADO_INICIANDO;
        inicio_amostragem := now e;
        soma_temp := F32.zero;
        total_amostras := 0;
        media_temp := media_temp st;
        buffer_temp := buffer_temp (antes e st);
        dma_temp_done := dma_temp_done (antes e st);
        hw := hw st |}, false).
Proof.
  intros cfg_temp dma_chan st e He. unfold tick, tarefa1_obter_media_temp.
  unfold antes. destruct (irq e); cbn [estado_t1 irq_dma]; rewrite He;
    reflexivity.
Qed.

Lemma tick_iniciando : forall cfg_temp dma_chan st e,
  estado_t1 st = ESTADO_INICIANDO ->
  tick cfg_temp dma_chan st e
  = ({| estado_t1 := ESTADO_AGUARDANDO_DMA;
        inicio_amostragem := inicio_amostragem st;
        soma_temp := soma_temp st;
        total_amostras := total_amostras st;
        media_temp := media_temp st;
        buffer_temp := buffer_temp (antes e st);
        dma_temp_done := false;
        hw := hw st ++ [ adc_select_input 4; adc_fifo_drain; adc_run false;
                         adc_fifo_setup true true 1 false false; adc_run true;
                         dma_channel_configure dma_chan cfg_temp
                           BLOCO_AMOSTRAS true ] |}, false).
Proof.
  intros cfg_temp dma_chan st e He. unfold tick, tarefa1_obter_media_temp.
  unfold antes. destruct (irq e); cbn [estado_t1 irq_dma]; rewrite He;
    reflexivity.
Qed.

Lemma tick_aguardando_sem_sinal : forall cfg_temp dma_chan st e,
  estado_t1 st = ESTADO_AGUARDANDO_DMA ->
  dma_temp_done st = false -> irq e = None ->
  tick cfg_temp dma_chan st e = (st, false).
Proof.
  intros cfg_temp dma_chan st e He Hd Hi.
  unfold tick, tarefa1_obter_media_temp, antes. rewrite Hi, He, Hd.
  reflexivity.
Qed.

Lemma run_aguardando_sem_sinal : forall cfg_temp dma_chan es st,
  estado_t1 st = ESTADO_AGUARDANDO_DMA ->
  dma_temp_done st = false -> sem_irq es = true ->
  run cfg_temp dma_chan st es = (st, repeat false (length es)).
Proof.
  intros cfg_temp dma_chan es.
  induction es as [|e es IH]; intros st He Hd Hs; [reflexivity|].
  unfold sem_irq in Hs. cbn [forallb] in Hs.
  apply andb_prop in Hs as [Hi Hs].
  assert (Hn : irq e = None) by (destruct (irq e); [discriminate|reflexivity]).
  cbn [run length repeat].
  rewrite (tick_aguardando_sem_sinal _ _ _ _ He Hd Hn).
  rewrite (IH st He Hd Hs). reflexivity.
Qed.

(** X1. A transfer that never completes stalls the state machine without
    side effects. From [ESTADO_INICIANDO], any number of invocations during
    which no completion interrupt arrives return false every time, start
    the transfer exactly once (the six driver calls of [iniciar_dma_temp],
    at the first invocation), and leave the machine in
    [ESTADO_AGUARDANDO_DMA] with the flag clear and the window start, the
    running sum, the sample count and the latched average untouched. *)
Theorem transferencia_sem_fim : forall cfg_temp dma_chan st e es,
  estado_t1 st = ESTADO_INICIANDO ->
  sem_irq es = true ->
  run cfg_temp dma_chan st (e :: es)
  = ({| estado_t1 := ESTADO_AGUARDANDO_DMA;
        inicio_amostragem := inicio_amostragem st;
        soma_temp := soma_temp st;
        total_amostras := total_amostras st;
        media_temp := media_temp st;
        buffer_temp := buffer_temp (antes e st);
        dma_temp_done := false;
        hw := hw st ++ [ adc_select_input 4; adc_fifo_drain; adc_run false;
                         adc_fifo_setup true true 1 false false; adc_run true;
                         dma_channel_configure dma_chan cfg_temp
                           BLOCO_AMOSTRAS true ] |},
     repeat false (S (length es))).
Proof.
  intros cfg_temp dma_chan st e es He Hs.
  cbn [run]. rewrite (tick_iniciando _ _ _ _ He).
  rewrite run_aguardando_sem_sinal by (try reflexivity; exact Hs).
  reflexivity.
Qed.

Lemma transferencia_sem_fim_witness :
  snd (run 0 0 (fst (tick 0 0 (init false) (mkEntrada 1000 None)))
         [ mkEntrada 501000 None; mkEntrada 1001000 None;
           mkEntrada 1501000 None; mkEntrada 2001000 None ])
  = [false; false; false; false].
Proof.
  rewrite (transferencia_sem_fim 0 0
             (fst (tick 0 0 (init false) (mkEntrada 1000 None)))
             (mkEntrada 501000 None)
             [ mkEntrada 1001000 None; mkEntrada 1501000 None;
               mkEntrada 2001000 None ]);
    reflexivity.
Defined.

(** *** The driver calls *)

Lemma adc_ligado_app : forall l1 l2,
  adc_ligado (l1 ++ l2)
  = fold_left (fun b c => match c with adc_run r => r | _ => b end)
              l2 (adc_ligado l1).
Proof. intros l1 l2. unfold adc_ligado. apply fold_left_app. Qed.


Lemma tick_chamadas : forall cfg_temp dma_chan st e,
  chamadas_coerentes cfg_temp dma_chan st ->
  chamadas_coerentes cfg_temp dma_chan (fst (tick cfg_temp dma_chan st e)).
Proof.
  intros cfg_temp dma_chan st e [Ha Hf].
  assert (Hh : hw (antes e st) = hw st)
    by (unfold antes; destruct (irq e); reflexivity).
  assert (He : estado_t1 (antes e st) = estado_t1 st)
    by (unfold antes; destruct (irq e); reflexivity).
  unfold chamadas_coerentes, tick, tarefa1_obter_media_temp.
  rewrite He. destruct (estado_t1 st) eqn:E.
  - cbn [fst hw estado_t1]. rewrite Hh. split; assumption.
  - cbn [fst hw estado_t1 iniciar_dma_temp]. rewrite Hh.
    rewrite adc_ligado_app, forallb_app, Hf. cbn [fold_left forallb chamada_regular].
    rewrite !Z.eqb_refl. split; reflexivity.
  - destruct (dma_temp_done (antes e st)).
    + destruct (_ >=? _); cbn [fst hw estado_t1]; rewrite Hh;
        rewrite adc_ligado_app, forallb_app, Hf; split; reflexivity.
    + cbn [fst]. rewrite Hh, He. split; assumption.
Qed.

(** X2. Along any execution from program start the ADC is left
    free-running exactly while the state machine is in
    [ESTADO_AGUARDANDO_DMA] (it is stopped in the two other states), and
    every driver call made is regular: only ADC input 4 is ever selected,
    and every transfer is configured for exactly [BLOCO_AMOSTRAS] samples,
    on the channel and with the configuration the caller passed, started at
    once. *)
Theorem adc_ligado_so_em_espera : forall cfg_temp dma_chan done es,
  let st := fst (run cfg_temp dma_chan (init done) es) in
  (adc_ligado (hw st) = true <-> estado_t1 st = ESTADO_AGUARDANDO_DMA) /\
  forallb (chamada_regular cfg_temp dma_chan) (hw st) = true.
Proof.
  intros cfg_temp dma_chan done es st.
  assert (H : chamadas_coerentes cfg_temp dma_chan st).
  { subst st.
    assert (H0 : chamadas_coerentes cfg_temp dma_chan (init done))
      by (split; reflexivity).
    revert H0. generalize (init done).
    induction es as [|e es IH]; intros s H0; [exact H0|].
    cbn [run]. pose proof (tick_chamadas cfg_temp dma_chan s e H0) as H1.
    destruct (tick cfg_temp dma_chan s e) as [s1 r]. cbn [fst] in H1.
    specialize (IH s1 H1).
    destruct (run cfg_temp dma_chan s1 es) as [s2 rs]. exact IH. }
  destruct H as [Ha Hf]. split; [|exact Hf].
  rewrite Ha. destruct (estado_t1 st); split; intros H;
    try discriminate H; reflexivity.
Qed.

(** *** Whole cycles *)

Lemma aguardando_fim : forall cfg_temp dma_chan st e buf,
  estado_t1 st = ESTADO_AGUARDANDO_DMA ->
  buffer_temp (antes e st) = buf ->
  dma_temp_done (antes e st) = true ->
  total_amostras st = 0 -> soma_temp st = F32.zero ->
  0 <= inicio_amostragem st ->
  inicio_amostragem st + DURACAO_AMOSTRAGEM_US <= now e ->
  now e < 2 ^ 63 ->
  tick cfg_temp dma_chan st e
  = ({| estado_t1 := ESTADO_PARADO;
        inicio_amostragem := inicio_amostragem st;
        soma_temp := soma_bloco buf (Z.to_nat BLOCO_AMOSTRAS) 0 F32.zero;
        total_amostras := BLOCO_AMOSTRAS;
        media_temp :=
          F32.div (soma_bloco buf (Z.to_nat BLOCO_AMOSTRAS) 0 F32.zero)
                  (F32.of_int BLOCO_AMOSTRAS);
        buffer_temp := buf;
        dma_temp_done := true;
        hw := hw st ++ [adc_run false] |}, true).
Proof.
  intros cfg_temp dma_chan st e buf He Hb Hd Ht Hs Hi Hn Hn'.
  assert (Hf : estado_t1 (antes e st) = estado_t1 st
               /\ inicio_amostragem (antes e st) = inicio_amostragem st
               /\ soma_temp (antes e st) = soma_temp st
               /\ total_amostras (antes e st) = total_amostras st
               /\ hw (antes e st) = hw st)
    by (unfold antes; destruct (irq e); repeat split).
  destruct Hf as (F1 & F2 & F3 & F4 & F5).
  unfold tick, tarefa1_obter_media_temp.
  rewrite F1, He, Hd, F2, F3, F4, F5, Hb, Ht, Hs.
  unfold DURACAO_AMOSTRAGEM_US in *.
  rewrite Tarefa1Runs.absolute_time_diff_us_exact by lia.
  replace (now e - inicio_amostragem st >=? 500000) with true
    by (symmetry; rewrite Z.geb_leb; apply Z.leb_le; lia).
  reflexivity.
Qed.

Lemma primeiro_bloco_tick : forall cfg_temp dma_chan p tl st e,
  DURACAO_AMOSTRAGEM_US <= 2 * p -> - p <= tl ->
  primeiro_bloco p tl st -> tl + p <= now e < 2 ^ 63 ->
  primeiro_bloco p (now e) (fst (tick cfg_temp dma_chan st e)) /\
  (snd (tick cfg_temp dma_chan st e) = true ->
   estado_t1 st = ESTADO_AGUARDANDO_DMA /\
   dma_temp_done (antes e st) = true /\
   total_amostras st = 0 /\ soma_temp st = F32.zero /\
   0 <= inicio_amostragem st /\
   inicio_amostragem st + DURACAO_AMOSTRAGEM_US <= now e).
Proof.
  intros cfg_temp dma_chan p tl st e Hp Htl Hj Hnow.
  unfold primeiro_bloco in *. unfold DURACAO_AMOSTRAGEM_US in *.
  destruct (estado_t1 st) eqn:He.
  - rewrite (tick_parado _ _ _ _ He). cbn [fst snd estado_t1 total_amostras
      soma_temp inicio_amostragem].
    split; [repeat split; lia|discriminate].
  - rewrite (tick_iniciando _ _ _ _ He). cbn [fst snd estado_t1 total_amostras
      soma_temp inicio_amostragem].
    destruct Hj as (Ht & Hs & Hi). split; [|discriminate].
    repeat split; try assumption; lia.
  - destruct Hj as (Ht & Hs & Hi & Hip).
    destruct (dma_temp_done (antes e st)) eqn:Hd.
    + rewrite (aguardando_fim cfg_temp dma_chan st e (buffer_temp (antes e st)))
        by (try assumption; try reflexivity;
            unfold DURACAO_AMOSTRAGEM_US; lia).
      cbn [fst snd estado_t1]. split; [exact I|]. intros _.
      repeat split; try assumption; lia.
    + assert (Hf : estado_t1 (antes e st) = estado_t1 st
                   /\ inicio_amostragem (antes e st) = inicio_amostragem st
                   /\ soma_temp (antes e st) = soma_temp st
                   /\ total_amostras (antes e st) = total_amostras st)
        by (unfold antes; destruct (irq e); repeat split).
      destruct Hf as (F1 & F2 & F3 & F4).
      unfold tick, tarefa1_obter_media_temp. rewrite F1, He, Hd.
      cbn [fst snd]. rewrite F1, He, F2, F3, F4.
      split; [|discriminate]. repeat split; try assumption; lia.
Qed.

Lemma primeiro_bloco_run : forall cfg_temp dma_chan p es tl st e,
  DURACAO_AMOSTRAGEM_US <= 2 * p -> - p <= tl ->
  primeiro_bloco p tl st -> relogio_periodico p tl (es ++ [e]) ->
  exists tl', - p <= tl' /\
    primeiro_bloco p tl' (fst (run cfg_temp dma_chan st es)) /\
    tl' + p <= now e < 2 ^ 63.
Proof.
  intros cfg_temp dma_chan p es.
  induction es as [|e0 es IH]; intros tl st e Hp Htl Hj Hr.
  - exists tl. split; [exact Htl|]. split; [exact Hj|]. exact (proj1 Hr).
  - cbn [app relogio_periodico run] in *. destruct Hr as [Hnow Hr].
    destruct (primeiro_bloco_tick cfg_temp dma_chan p tl st e0 Hp Htl Hj Hnow)
      as [Hj1 _].
    destruct (tick cfg_temp dma_chan st e0) as [st1 r]. cbn [fst] in Hj1.
    assert (Htl1 : - p <= now e0) by (unfold DURACAO_AMOSTRAGEM_US in Hp; lia).
    destruct (IH (now e0) st1 e Hp Htl1 Hj1 Hr) as (tl' & H1 & H2 & H3).
    destruct (run cfg_temp dma_chan st1 es) as [st2 rs].
    exists tl'. split; [exact H1|]. split; [exact H2|exact H3].
Qed.

(** X3. When the invocations are at least half a window apart (the timers
    of [main] fire every 500 ms, a whole window), every acquisition cycle
    consists of exactly one block: whenever an invocation ends a cycle,
    [total_amostras] is exactly [BLOCO_AMOSTRAS], and the latched average is
    the sum of the converted samples of that one buffer, accumulated from
    [0.0f], divided by [BLOCO_AMOSTRAS]; nothing of an earlier cycle enters
    it. *)
Theorem um_bloco_por_ciclo : forall cfg_temp dma_chan done p es e,
  DURACAO_AMOSTRAGEM_US <= 2 * p ->
  relogio_periodico p (- p) (es ++ [e]) ->
  let st := fst (run cfg_temp dma_chan (init done) es) in
  length (buffer_temp (antes e st)) = Z.to_nat BLOCO_AMOSTRAS ->
  snd (tick cfg_temp dma_chan st e) = true ->
  let st' := fst (tick cfg_temp dma_chan st e) in
  total_amostras st' = BLOCO_AMOSTRAS /\
  soma_temp st' = soma_amostras (buffer_temp (antes e st)) F32.zero /\
  media_temp st'
  = F32.div (soma_amostras (buffer_temp (antes e st)) F32.zero)
            (F32.of_int BLOCO_AMOSTRAS).
Proof.
  intros cfg_temp dma_chan done p es e Hp Hr st Hl Htrue st'.
  destruct (primeiro_bloco_run cfg_temp dma_chan p es (- p) (init done) e Hp
              (Z.le_refl _) I Hr) as (tl & Htl & Hj & Hnow).
  fold st in Hj.
  destruct (primeiro_bloco_tick cfg_temp dma_chan p tl st e Hp Htl Hj Hnow)
    as [_ Hk].
  destruct (Hk Htrue) as (He & Hd & Ht & Hs & Hi & Hw).
  subst st'.
  rewrite (aguardando_fim cfg_temp dma_chan st e (buffer_temp (antes e st)))
    by (try assumption; try reflexivity; lia).
  cbn [fst total_amostras soma_temp media_temp].
  rewrite (Tarefa1Props.soma_bloco_buffer _ _ Hl).
  repeat split.
Qed.

Lemma um_bloco_por_ciclo_witness :
  let st := fst (run 0 0 (init false)
                   [mkEntrada 0 None; mkEntrada 500000 None]) in
  let e := mkEntrada 1000000 (Some Cenario.zeros) in
  let st' := fst (tick 0 0 st e) in
  total_amostras st' = BLOCO_AMOSTRAS /\
  soma_temp st' = soma_amostras (buffer_temp (antes e st)) F32.zero /\
  media_temp st'
  = F32.div (soma_amostras (buffer_temp (antes e st)) F32.zero)
            (F32.of_int BLOCO_AMOSTRAS).
Proof.
  apply (um_bloco_por_ciclo 0 0 false 500000
           [mkEntrada 0 None; mkEntrada 500000 None]
           (mkEntrada 1000000 (Some Cenario.zeros))).
  - lazy. discriminate.
  - cbn. lia.
  - lazy. reflexivity.
  - lazy. reflexivity.
Defined.

(** X4. A cycle completes in three invocations. From [ESTADO_PARADO],
    three invocations of which the third comes at least a window after the
    first and after the completion interrupt return false, false, true;
    the machine is back in [ESTADO_PARADO] having started one transfer, and
    the latched average is the sum of the converted samples of the
    delivered block divided by [BLOCO_AMOSTRAS]. An interrupt pending
    before the transfer is started is discarded. *)
Theorem ciclo_em_tres_invocacoes : forall cfg_temp dma_chan st e1 e2 e3 buf,
  estado_t1 st = ESTADO_PARADO ->
  irq e3 = Some buf ->
  length buf = Z.to_nat BLOCO_AMOSTRAS ->
  0 <= now e1 ->
  now e1 + DURACAO_AMOSTRAGEM_US <= now e3 ->
  now e3 < 2 ^ 63 ->
  let r := run cfg_temp dma_chan st [e1; e2; e3] in
  snd r = [false; false; true] /\
  estado_t1 (fst r) = ESTADO_PARADO /\
  total_amostras (fst r) = BLOCO_AMOSTRAS /\
  tarefa1_termina (fst r)
  = F32.div (soma_amostras buf F32.zero) (F32.of_int BLOCO_AMOSTRAS) /\
  transferencias (hw (fst r)) = S (transferencias (hw st)).
Proof.
  intros cfg_temp dma_chan st e1 e2 e3 buf He Hi Hl H1 H13 H3 r.
  subst r. cbn [run].
  rewrite (tick_parado _ _ _ _ He).
  rewrite tick_iniciando by reflexivity.
  cbn [inicio_amostragem soma_temp total_amostras media_temp hw].
  erewrite (aguardando_fim cfg_temp dma_chan _ e3 buf);
    [ | reflexivity | unfold antes; rewrite Hi; reflexivity
      | unfold antes; rewrite Hi; reflexivity | reflexivity | reflexivity
      | exact H1 | exact H13 | exact H3 ].
  cbn [fst snd estado_t1 total_amostras media_temp hw tarefa1_termina].
  rewrite (Tarefa1Props.soma_bloco_buffer _ _ Hl).
  repeat split.
  unfold transferencias. rewrite <- app_assoc, filter_app, length_app.
  cbn. lia.
Qed.

Lemma ciclo_em_tres_invocacoes_witness :
  snd (run 0 0 (init true)
         [ mkEntrada 0 None; mkEntrada 500000 None;
           mkEntrada 1000000 (Some Cenario.zeros) ])
  = [false; false; true].
Proof.
  assert (H1 : 0 <= now (mkEntrada 0 None)) by (lazy; discriminate).
  assert (H13 : now (mkEntrada 0 None) + DURACAO_AMOSTRAGEM_US
                <= now (mkEntrada 1000000 (Some Cenario.zeros)))
    by (lazy; discriminate).
  assert (H3 : now (mkEntrada 1000000 (Some Cenario.zeros)) < 2 ^ 63)
    by (lazy; reflexivity).
  exact (proj1 (ciclo_em_tres_invocacoes 0 0 (init true)
                  (mkEntrada 0 None) (mkEntrada 500000 None)
                  (mkEntrada 1000000 (Some Cenario.zeros)) Cenario.zeros
                  eq_refl eq_refl eq_refl H1 H13 H3)).
Defined.

End Tarefa1Mais.

(** ** The sample converter: range and resolution *)

Module ConverterMais.
Import Tarefa1 Complementos.

Lemma limites_do_conversor :
  celsius_max = convert_to_celsius 0 /\
  celsius_min = convert_to_celsius 4095 /\
  lit_0_467 = F32.div (F32.of_int 467) (F32.of_int 1000) /\
  lit_0_469 = F32.div (F32.of_int 469) (F32.of_int 1000) /\
  entre celsius_min celsius_max (convert_to_celsius 4095) = true.
Proof. vm_compute. repeat split; reflexivity. Qed.

(** Every raw value below 4095 passes the check, by evaluation. *)
Lemma tabela_confere : forallb confere_celsius (seq 0 4095) = true.
Proof. vm_compute. reflexivity. Qed.

Lemma confere_raw : forall raw, 0 <= raw < 4095 ->
  entre celsius_min celsius_max (convert_to_celsius raw) = true /\
  entre lit_0_467 lit_0_469 (passo_celsius raw) = true.
Proof.
  intros raw H.
  pose proof (proj1 (forallb_forall confere_celsius (seq 0 4095))
                tabela_confere (Z.to_nat raw)) as Hc.
  unfold confere_celsius in Hc. rewrite Z2Nat.id in Hc by lia.
  apply andb_prop. apply Hc. apply in_seq. lia.
Qed.

(** Every raw value of the range is within the decimal bounds, by
    evaluation. *)
Lemma tabela_faixa : forallb confere_faixa (seq 0 4096) = true.
Proof. vm_compute. reflexivity. Qed.

Lemma extremos_do_conversor :
  convert_to_celsius 0 = S754_finite false 14327041 (-15) /\
  convert_to_celsius 4095 = S754_finite true 12122482 (-13) /\
  leb (F32.div (F32.of_int 43722) (F32.of_int 100)) (convert_to_celsius 0)
  = true /\
  leb (convert_to_celsius 4095)
      (F32.div (F32.of_int (-14797)) (F32.of_int 10)) = true.
Proof. vm_compute. repeat split; reflexivity. Qed.

(** X5. On the whole 12-bit range the converter returns a finite binary32
    value (never an infinity or a NaN) between -1479.8 and 437.23 degrees,
    and between its values at the two ends of the range. The ends are
    attained to within a hundredth of those figures: the value at raw 0 is
    14327041 * 2^-15, between 437.22 and 437.23, and the value at raw 4095
    is -12122482 * 2^-13, between -1479.8 and -1479.7. *)
Theorem convert_to_celsius_faixa : forall raw,
  0 <= raw -> raw <= 4095 ->
  finito (convert_to_celsius raw) = true /\
  valid_binary F32.prec F32.emax (convert_to_celsius raw) = true /\
  leb (convert_to_celsius 4095) (convert_to_celsius raw) = true /\
  leb (convert_to_celsius raw) (convert_to_celsius 0) = true /\
  leb (F32.div (F32.of_int (-14798)) (F32.of_int 10))
      (convert_to_celsius raw) = true /\
  leb (convert_to_celsius raw)
      (F32.div (F32.of_int 43723) (F32.of_int 100)) = true /\
  convert_to_celsius 0 = S754_finite false 14327041 (-15) /\
  convert_to_celsius 4095 = S754_finite true 12122482 (-13) /\
  leb (F32.div (F32.of_int 43722) (F32.of_int 100)) (convert_to_celsius 0)
  = true /\
  leb (convert_to_celsius 4095)
      (F32.div (F32.of_int (-14797)) (F32.of_int 10)) = true.
Proof.
  intros raw H0 H1.
  destruct limites_do_conversor as (Emax & Emin & _ & _ & Hfim).
  assert (H : entre celsius_min celsius_max (convert_to_celsius raw) = true).
  { destruct (Z.eq_dec raw 4095) as [->|Hne]; [exact Hfim|].
    apply confere_raw. lia. }
  rewrite Emax, Emin in H. unfold entre in H.
  apply andb_prop in H as [H Hhi]. apply andb_prop in H as [H Hlo].
  apply andb_prop in H as [Hf Hv].
  pose proof (proj1 (forallb_forall confere_faixa (seq 0 4096))
                tabela_faixa (Z.to_nat raw)) as Hc.
  unfold confere_faixa, entre in Hc. rewrite Z2Nat.id in Hc by lia.
  specialize (Hc ltac:(apply in_seq; lia)).
  apply andb_prop in Hc as [Hc Dhi]. apply andb_prop in Hc as [_ Dlo].
  destruct extremos_do_conversor as (X0 & X1 & X2 & X3).
  split; [exact Hf|]. split; [exact Hv|]. split; [exact Hlo|].
  split; [exact Hhi|]. split; [exact Dlo|]. split; [exact Dhi|].
  split; [exact X0|]. split; [exact X1|]. split; [exact X2|exact X3].
Qed.

Lemma convert_to_celsius_faixa_witness :
  leb (F32.div (F32.of_int (-14798)) (F32.of_int 10))
      (convert_to_celsius 2048) = true /\
  leb (convert_to_celsius 2048)
      (F32.div (F32.of_int 43723) (F32.of_int 100)) = true.
Proof.
  destruct (convert_to_celsius_faixa 2048) as (_ & _ & _ & _ & H1 & H2 & _);
    [lia | lia |].
  split; [exact H1|exact H2].
Defined.

(** X6. The resolution of the converter is uniform over the range: going
    from any raw value to the next lowers the converted temperature by
    between 0.467 and 0.469 degrees (the float subtraction of the two
    results, itself a finite value). *)
Theorem convert_to_celsius_resolucao : forall raw,
  0 <= raw -> raw < 4095 ->
  let d := F32.sub (convert_to_celsius raw) (convert_to_celsius (raw + 1)) in
  finito d = true /\
  leb (F32.div (F32.of_int 467) (F32.of_int 1000)) d = true /\
  leb d (F32.div (F32.of_int 469) (F32.of_int 1000)) = true.
Proof.
  intros raw H0 H1 d.
  destruct limites_do_conversor as (_ & _ & <- & <- & _).
  destruct (confere_raw raw (conj H0 H1)) as [_ H].
  unfold entre, passo_celsius in H. fold d in H.
  apply andb_prop in H as [H Hhi]. apply andb_prop in H as [H Hlo].
  apply andb_prop in H as [Hf _]. repeat split; assumption.
Qed.

Lemma convert_to_celsius_resolucao_witness :
  let d := F32.sub (convert_to_celsius 876) (convert_to_celsius (876 + 1)) in
  finito d = true /\
  leb (F32.div (F32.of_int 467) (F32.of_int 1000)) d = true /\
  leb d (F32.div (F32.of_int 469) (F32.of_int 1000)) = true.
Proof.
  apply convert_to_celsius_resolucao; lia.
Defined.

End ConverterMais.

(** ** The cyclic executor: publication, phase, blinking *)

Module MainMais.
Import Main Complementos.

(** One call of the state machine from [tarefa_1] is an invocation with no
    interrupt in between. *)
Lemma tarefa_1_chama : forall cfg_temp chan now st,
  ciclo_finalizado st = false ->
  t1 (tarefa_1 cfg_temp chan now st)
  = fst (Tarefa1.tick cfg_temp chan (t1 st) (Tarefa1.mkEntrada now None)) /\
  ciclo_finalizado (tarefa_1 cfg_temp chan now st)
  = snd (Tarefa1.tick cfg_temp chan (t1 st) (Tarefa1.mkEntrada now None)) /\
  media (tarefa_1 cfg_temp chan now st) = media st /\
  leitura_temp_concluida (tarefa_1 cfg_temp chan now st)
  = leitura_temp_concluida st /\
  out (tarefa_1 cfg_temp chan now st) = out st.
Proof.
  intros cfg_temp chan now st H. unfold tarefa_1. rewrite H. cbn [negb].
  change (Tarefa1.tick cfg_temp chan (t1 st) (Tarefa1.mkEntrada now None))
    with (Tarefa1.tarefa1_obter_media_temp cfg_temp chan now (t1 st)).
  destruct (Tarefa1.tarefa1_obter_media_temp cfg_temp chan now (t1 st)).
  repeat split.
Qed.

Lemma publicacao_passo : forall cfg_temp chan st ev,
  publicacao_coerente st ->
  publicacao_coerente (passo cfg_temp chan st ev).
Proof.
  intros cfg_temp chan st ev (Hm & Hf & Ha).
  destruct ev as [buf|now|ini fim r|ini fim|ini fim|]; cbn [passo].
  - unfold publicacao_coerente, com_t1, conta in *.
    cbn [t1 media ciclo_finalizado leitura_temp_concluida out
         Tarefa1.irq_dma Tarefa1.media_temp].
    repeat split; auto; apply Hf; assumption.
  - destruct (ciclo_finalizado st) eqn:Hc.
    + unfold publicacao_coerente, tarefa_1, conta in *. rewrite Hc.
      cbn [negb t1 media ciclo_finalizado leitura_temp_concluida out].
      split; [reflexivity|]. split; [discriminate|]. intros _.
      destruct (leitura_temp_concluida st) eqn:Hg; cbn [negb].
      * rewrite filter_app, length_app, (Ha eq_refl). reflexivity.
      * rewrite (proj1 (Hf eq_refl)). reflexivity.
    + destruct (tarefa_1_chama cfg_temp chan now st Hc)
        as (Ht & Hcf & Hmed & Hg & Ho).
      unfold publicacao_coerente, conta. rewrite Ht, Hcf, Hmed, Hg, Ho.
      split; [|split; assumption].
      intros Hr. rewrite Tarefa1Runs.tick_false_media by exact Hr.
      apply Hm. reflexivity.
  - unfold publicacao_coerente, tarefa_2, conta in *.
    destruct (leitura_temp_concluida st) eqn:Hg; cbn [negb];
      [|rewrite Hg; split; [exact Hm|split; [exact Hf|exact Ha]]].
    destruct (_ <? _);
      cbn [t1 media ciclo_finalizado leitura_temp_concluida out];
      rewrite ?Hg; (split; [exact Hm|]); (split; [discriminate|]); intros _;
      rewrite ?filter_app, ?length_app, (Ha eq_refl); reflexivity.
  - unfold publicacao_coerente, tarefa_3, conta in *.
    destruct (leitura_temp_concluida st) eqn:Hg; cbn [negb];
      [|rewrite Hg; split; [exact Hm|split; [exact Hf|exact Ha]]].
    destruct (_ <? _);
      cbn [t1 media ciclo_finalizado leitura_temp_concluida out];
      rewrite ?Hg; (split; [exact Hm|]); (split; [discriminate|]); intros _;
      rewrite ?filter_app, ?length_app, (Ha eq_refl); reflexivity.
  - unfold publicacao_coerente, tarefa_4, conta in *.
    destruct (leitura_temp_concluida st) eqn:Hg; cbn [negb];
      [|rewrite Hg; split; [exact Hm|split; [exact Hf|exact Ha]]].
    destruct (_ <? _);
      cbn [t1 media ciclo_finalizado leitura_temp_concluida out];
      rewrite ?Hg; (split; [exact Hm|]); (split; [discriminate|]); intros _;
      rewrite ?filter_app, ?length_app, (Ha eq_refl); reflexivity.
  - unfold publicacao_coerente, tarefa_5, conta in *.
    destruct (leitura_temp_concluida st) eqn:Hg; cbn [negb];
      [|rewrite Hg; split; [exact Hm|split; [exact Hf|exact Ha]]].
    destruct (_ <? _); [|destruct (F32.ltb _ _); [destruct (estado_5 st)|]];
      cbn [t1 media ciclo_finalizado leitura_temp_concluida out];
      rewrite ?Hg; (split; [exact Hm|]); (split; [discriminate|]); intros _;
      rewrite ?filter_app, ?length_app, (Ha eq_refl); reflexivity.
Qed.

(** X7. What the executor publishes is coherent along every execution
    from program start. While the completion flag of [tarefa_1] is clear,
    the shared [media] equals the average latched by the state machine (a
    finished cycle is unpublished for one invocation only). While the gate
    is closed, [media] is [0.0f] and nothing at all has been printed,
    analysed, displayed or lit. Once the gate is open, the first-reading
    message has been printed exactly once. *)
Theorem publicacao_sempre_coerente : forall cfg_temp chan done evs,
  let st := executa cfg_temp chan (init done) evs in
  (ciclo_finalizado st = false ->
   media st = Tarefa1.tarefa1_termina (t1 st)) /\
  (leitura_temp_concluida st = false ->
   out st = [] /\ media st = F32.zero) /\
  (leitura_temp_concluida st = true ->
   length (filter (fun c => match c with
                            | printf_primeira_leitura => true
                            | _ => false
                            end) (out st)) = 1%nat).
Proof.
  intros cfg_temp chan done evs st.
  assert (H : publicacao_coerente st).
  { subst st.
    assert (H0 : publicacao_coerente (init done)).
    { split; [reflexivity|]. split; [split; reflexivity|discriminate]. }
    revert H0. generalize (init done). unfold executa.
    induction evs as [|ev evs IH]; intros s H0; [exact H0|].
    cbn [fold_left]. apply IH. apply publicacao_passo. exact H0. }
  exact H.
Qed.

(** *** A whole acquisition and publication *)

Lemma jusante_passo : forall cfg_temp chan st ev,
  e_jusante ev = true ->
  t1 (passo cfg_temp chan st ev) = t1 st /\
  ciclo_finalizado (passo cfg_temp chan st ev) = ciclo_finalizado st.
Proof.
  intros cfg_temp chan st [buf|now|ini fim r|ini fim|ini fim|] H;
    try discriminate H; cbn [passo];
    unfold tarefa_2, tarefa_3, tarefa_4, tarefa_5;
    repeat match goal with
           | |- context [if ?b then _ else _] => destruct b
           end; split; reflexivity.
Qed.

Lemma jusante_preserva : forall cfg_temp chan evs st,
  forallb e_jusante evs = true ->
  t1 (executa cfg_temp chan st evs) = t1 st /\
  ciclo_finalizado (executa cfg_temp chan st evs) = ciclo_finalizado st.
Proof.
  intros cfg_temp chan evs.
  induction evs as [|ev evs IH]; intros st H; [split; reflexivity|].
  cbn [forallb] in H. apply andb_prop in H as [Hev Hevs].
  unfold executa in *. cbn [fold_left].
  destruct (IH (passo cfg_temp chan st ev) Hevs) as [-> ->].
  apply jusante_passo. exact Hev.
Qed.

Lemma executa_app : forall cfg_temp chan l1 l2 st,
  executa cfg_temp chan st (l1 ++ l2)
  = executa cfg_temp chan (executa cfg_temp chan st l1) l2.
Proof. intros. unfold executa. apply fold_left_app. Qed.

Lemma executa_um : forall cfg_temp chan st ev,
  executa cfg_temp chan st [ev] = passo cfg_temp chan st ev.
Proof. reflexivity. Qed.

(** An invocation of [tarefa_1] that calls the state machine, after some
    downstream callbacks. *)
Lemma tarefa_1_apos_jusante : forall cfg_temp chan ds now st,
  forallb e_jusante ds = true ->
  ciclo_finalizado st = false ->
  let st' := executa cfg_temp chan st (ds ++ [ev_tarefa_1 now]) in
  t1 st' = fst (Tarefa1.tick cfg_temp chan (t1 st)
                  (Tarefa1.mkEntrada now None)) /\
  ciclo_finalizado st'
  = snd (Tarefa1.tick cfg_temp chan (t1 st) (Tarefa1.mkEntrada now None)).
Proof.
  intros cfg_temp chan ds now st Hds Hc st'. subst st'.
  rewrite executa_app.
  destruct (jusante_preserva cfg_temp chan ds st Hds) as [Ht Hcf].
  rewrite executa_um. cbn [passo].
  destruct (tarefa_1_chama cfg_temp chan now (executa cfg_temp chan st ds))
    as (H1 & H2 & _); [rewrite Hcf; exact Hc|].
  rewrite H1, H2, Ht. split; reflexivity.
Qed.

(** X8. The first average is published by the fourth invocation of
    [tarefa_1]. From a state with the state machine idle and no cycle
    pending, four invocations of [tarefa_1] (the third at least a window
    after the first, the completion interrupt arriving between the second
    and the third, downstream callbacks interleaved in any way) leave in
    [media] the sum of the converted samples of the delivered block divided
    by [BLOCO_AMOSTRAS], with the gate open, the flag clear and the state
    machine idle again. *)
Theorem primeira_media_na_quarta_invocacao :
  forall cfg_temp chan st a b c d buf ds1 ds2 ds3 ds4,
  ciclo_finalizado st = false ->
  Tarefa1.estado_t1 (t1 st) = Tarefa1.ESTADO_PARADO ->
  length buf = Z.to_nat Tarefa1.BLOCO_AMOSTRAS ->
  0 <= a -> a + Tarefa1.DURACAO_AMOSTRAGEM_US <= c -> c < 2 ^ 63 ->
  forallb e_jusante ds1 = true -> forallb e_jusante ds2 = true ->
  forallb e_jusante ds3 = true -> forallb e_jusante ds4 = true ->
  let st' := executa cfg_temp chan st
               (([ev_tarefa_1 a] ++ ds1 ++ [ev_tarefa_1 b])
                ++ (ds2 ++ [ev_irq_dma buf])
                ++ (ds3 ++ [ev_tarefa_1 c])
                ++ (ds4 ++ [ev_tarefa_1 d])) in
  media st'
  = F32.div (Tarefa1.soma_amostras buf F32.zero)
            (F32.of_int Tarefa1.BLOCO_AMOSTRAS) /\
  leitura_temp_concluida st' = true /\
  ciclo_finalizado st' = false /\
  Tarefa1.estado_t1 (t1 st') = Tarefa1.ESTADO_PARADO.
Proof.
  intros cfg_temp chan st a b c d buf ds1 ds2 ds3 ds4
         Hc He Hl Ha Hac Hc63 H1 H2 H3 H4 st'.
  subst st'. rewrite !executa_app.
  (* first invocation: the window opens *)
  destruct (tarefa_1_apos_jusante cfg_temp chan [] a st eq_refl Hc)
    as [Ht1 Hc1].
  cbn [app] in Ht1, Hc1. set (s1 := executa cfg_temp chan st [ev_tarefa_1 a]) in *.
  rewrite (Tarefa1Mais.tick_parado _ _ _ _ He) in Ht1, Hc1.
  cbn [fst snd Tarefa1.antes Tarefa1.irq] in Ht1, Hc1.
  (* second invocation: the transfer starts *)
  destruct (tarefa_1_apos_jusante cfg_temp chan ds1 b s1 H1 Hc1) as [Ht2 Hc2].
  rewrite executa_app in Ht2, Hc2.
  set (s2 := executa cfg_temp chan (executa cfg_temp chan s1 ds1)
               [ev_tarefa_1 b]) in *.
  rewrite Ht1 in Ht2, Hc2.
  rewrite Tarefa1Mais.tick_iniciando in Ht2, Hc2 by reflexivity.
  cbn [fst snd Tarefa1.antes Tarefa1.irq Tarefa1.inicio_amostragem
       Tarefa1.soma_temp Tarefa1.total_amostras Tarefa1.media_temp
       Tarefa1.buffer_temp Tarefa1.hw] in Ht2, Hc2.
  (* the interrupt *)
  destruct (jusante_preserva cfg_temp chan ds2 s2 H2) as [Ht3 Hc3].
  set (s3 := executa cfg_temp chan (executa cfg_temp chan s2 ds2)
               [ev_irq_dma buf]).
  assert (Ht3' : t1 s3 = Tarefa1.irq_dma buf (t1 s2))
    by (subst s3; rewrite executa_um; cbn [passo com_t1 t1];
        rewrite Ht3; reflexivity).
  assert (Hc3' : ciclo_finalizado s3 = false)
    by (subst s3; rewrite executa_um; cbn [passo com_t1 ciclo_finalizado];
        rewrite Hc3; exact Hc2).
  (* third invocation: the block is accumulated and the cycle ends *)
  destruct (tarefa_1_apos_jusante cfg_temp chan ds3 c s3 H3 Hc3') as [Ht4 Hc4].
  rewrite executa_app in Ht4, Hc4.
  set (s4 := executa cfg_temp chan (executa cfg_temp chan s3 ds3)
               [ev_tarefa_1 c]) in *.
  rewrite Ht3', Ht2 in Ht4, Hc4.
  rewrite (Tarefa1Mais.aguardando_fim cfg_temp chan _ _ buf) in Ht4, Hc4
    by (try reflexivity; assumption).
  cbn [fst snd] in Ht4, Hc4.
  (* fourth invocation: publication *)
  destruct (jusante_preserva cfg_temp chan ds4 s4 H4) as [Ht5 Hc5].
  rewrite executa_um. cbn [passo]. unfold tarefa_1.
  rewrite Hc5, Hc4. cbn [negb media leitura_temp_concluida ciclo_finalizado t1].
  rewrite Ht5, Ht4.
  cbn [Tarefa1.tarefa1_termina Tarefa1.media_temp Tarefa1.estado_t1].
  rewrite (Tarefa1Props.soma_bloco_buffer _ _ Hl).
  repeat split.
Qed.

Lemma primeira_media_na_quarta_invocacao_witness :
  let st' := executa 0 0 (init false)
               (([ev_tarefa_1 0] ++ [ev_tarefa_5] ++ [ev_tarefa_1 500000])
                ++ ([] ++ [ev_irq_dma Cenario.zeros])
                ++ ([ev_tarefa_2 1 2 0] ++ [ev_tarefa_1 1000000])
                ++ ([] ++ [ev_tarefa_1 1500000])) in
  media st'
  = F32.div (Tarefa1.soma_amostras Cenario.zeros F32.zero)
            (F32.of_int Tarefa1.BLOCO_AMOSTRAS) /\
  leitura_temp_concluida st' = true /\
  ciclo_finalizado st' = false /\
  Tarefa1.estado_t1 (t1 st') = Tarefa1.ESTADO_PARADO.
Proof.
  assert (Ha : 0 <= 0) by (lazy; discriminate).
  assert (Hac : 0 + Tarefa1.DURACAO_AMOSTRAGEM_US <= 1000000)
    by (lazy; discriminate).
  assert (Hc : 1000000 < 2 ^ 63) by (lazy; reflexivity).
  exact (primeira_media_na_quarta_invocacao 0 0 (init false)
           0 500000 1000000 1500000 Cenario.zeros
           [ev_tarefa_5] [] [ev_tarefa_2 1 2 0] []
           eq_refl eq_refl eq_refl Ha Hac Hc eq_refl eq_refl eq_refl eq_refl).
Defined.

(** *** The throttles in lockstep *)

Lemma divisor_2 : forall cfg_temp chan st evs,
  leitura_temp_concluida st = true -> 0 <= contador_2 st < 3 ->
  divisor_em_execucao cfg_temp chan contador_2 execucoes_2 e_tarefa_2 st evs.
Proof.
  intros cfg_temp chan st evs Hg Hc.
  apply MainProps.divisor_execucao; try assumption.
  - intros s [buf|now|ini fim r|ini fim|ini fim|] Hp; try discriminate Hp.
    apply MainProps.tarefa_2_divisor.
  - apply MainProps.tarefa_2_moldura.
Qed.

Lemma divisor_3a : forall cfg_temp chan st evs,
  leitura_temp_concluida st = true -> 0 <= contador_3 st < 3 ->
  divisor_em_execucao cfg_temp chan contador_3 execucoes_3 e_tarefa_3 st evs.
Proof.
  intros cfg_temp chan st evs Hg Hc.
  apply MainProps.divisor_execucao; try assumption.
  - intros s [buf|now|ini fim r|ini fim|ini fim|] Hp; try discriminate Hp.
    apply MainProps.tarefa_3_divisor.
  - apply MainProps.tarefa_3_moldura.
Qed.

Lemma divisor_4 : forall cfg_temp chan st evs,
  leitura_temp_concluida st = true -> 0 <= contador_4 st < 3 ->
  divisor_em_execucao cfg_temp chan contador_4 execucoes_4 e_tarefa_4 st evs.
Proof.
  intros cfg_temp chan st evs Hg Hc.
  apply MainProps.divisor_execucao; try assumption.
  - intros s [buf|now|ini fim r|ini fim|ini fim|] Hp; try discriminate Hp.
    apply MainProps.tarefa_4_divisor.
  - apply MainProps.tarefa_4_moldura.
Qed.

Lemma divisor_5 : forall cfg_temp chan st evs,
  leitura_temp_concluida st = true -> 0 <= contador_5 st < 3 ->
  divisor_em_execucao cfg_temp chan contador_5 execucoes_5 e_tarefa_5 st evs.
Proof.
  intros cfg_temp chan st evs Hg Hc.
  apply MainProps.divisor_execucao; try assumption.
  - intros s [buf|now|ini fim r|ini fim|ini fim|] Hp; try discriminate Hp.
    apply MainProps.tarefa_5_divisor.
  - apply MainProps.tarefa_5_moldura.
Qed.

(** The interrupt and [tarefa_1] leave the four throttles alone. *)
Lemma fase_apos_tarefa_1 : forall cfg_temp chan st ev,
  e_jusante ev = false ->
  em_fase st -> contadores_em_faixa st ->
  em_fase (passo cfg_temp chan st ev) /\
  contadores_em_faixa (passo cfg_temp chan st ev).
Proof.
  intros cfg_temp chan st ev Hev Hf Hr.
  assert (H2 : e_tarefa_2 ev = false) by (destruct ev; try reflexivity; discriminate Hev).
  assert (H3 : e_tarefa_3 ev = false) by (destruct ev; try reflexivity; discriminate Hev).
  assert (H4 : e_tarefa_4 ev = false) by (destruct ev; try reflexivity; discriminate Hev).
  assert (H5 : e_tarefa_5 ev = false) by (destruct ev; try reflexivity; discriminate Hev).
  destruct (MainProps.tarefa_2_moldura cfg_temp chan st ev H2) as [C2 E2].
  destruct (MainProps.tarefa_3_moldura cfg_temp chan st ev H3) as [C3 E3].
  destruct (MainProps.tarefa_4_moldura cfg_temp chan st ev H4) as [C4 E4].
  destruct (MainProps.tarefa_5_moldura cfg_temp chan st ev H5) as [C5 E5].
  unfold em_fase, contadores_em_faixa in *.
  rewrite C2, C3, C4, C5, E2, E3, E4, E5. split; assumption.
Qed.

(** The four downstream callbacks, once each, keep the throttles in
    phase. *)
Lemma fase_apos_jusante : forall cfg_temp chan st i2 f2 r i3 f3 i4 f4,
  em_fase st -> contadores_em_faixa st ->
  let st' := executa cfg_temp chan st
               [ ev_tarefa_2 i2 f2 r; ev_tarefa_3 i3 f3;
                 ev_tarefa_4 i4 f4; ev_tarefa_5 ] in
  em_fase st' /\ contadores_em_faixa st'.
Proof.
  intros cfg_temp chan st i2 f2 r i3 f3 i4 f4 Hf Hr st'.
  destruct (leitura_temp_concluida st) eqn:Hg.
  - destruct Hr as (R2 & R3 & R4 & R5).
    destruct (divisor_2 cfg_temp chan st
                [ ev_tarefa_2 i2 f2 r; ev_tarefa_3 i3 f3;
                  ev_tarefa_4 i4 f4; ev_tarefa_5 ] Hg R2) as (_ & C2 & E2 & _).
    destruct (divisor_3a cfg_temp chan st
                [ ev_tarefa_2 i2 f2 r; ev_tarefa_3 i3 f3;
                  ev_tarefa_4 i4 f4; ev_tarefa_5 ] Hg R3) as (_ & C3 & E3 & _).
    destruct (divisor_4 cfg_temp chan st
                [ ev_tarefa_2 i2 f2 r; ev_tarefa_3 i3 f3;
                  ev_tarefa_4 i4 f4; ev_tarefa_5 ] Hg R4) as (_ & C4 & E4 & _).
    destruct (divisor_5 cfg_temp chan st
                [ ev_tarefa_2 i2 f2 r; ev_tarefa_3 i3 f3;
                  ev_tarefa_4 i4 f4; ev_tarefa_5 ] Hg R5) as (_ & C5 & E5 & _).
    fold st' in C2, C3, C4, C5, E2, E3, E4, E5.
    change (invocacoes e_tarefa_2 _) with 1 in C2, E2.
    change (invocacoes e_tarefa_3 _) with 1 in C3, E3.
    change (invocacoes e_tarefa_4 _) with 1 in C4, E4.
    change (invocacoes e_tarefa_5 _) with 1 in C5, E5.
    destruct Hf as (F3 & F4 & F5 & G3 & G4 & G5).
    rewrite F3 in C3, E3. rewrite F4 in C4, E4. rewrite F5 in C5, E5.
    rewrite G3 in E3. rewrite G4 in E4. rewrite G5 in E5.
    pose proof (Z.mod_pos_bound (contador_2 st + 1) 3 ltac:(lia)) as Hm.
    unfold em_fase, contadores_em_faixa.
    rewrite C2, C3, C4, C5. repeat split; try lia.
  - destruct (MainProps.tarefas_com_leitura_pendente st Hg)
      as (T2 & T3 & T4 & T5).
    subst st'. unfold executa. cbn [fold_left passo].
    rewrite T2, T3, T4, T5. split; assumption.
Qed.

Lemma fase_apos_tique : forall cfg_temp chan q st,
  em_fase st -> contadores_em_faixa st ->
  em_fase (executa cfg_temp chan st (eventos_do_tique q)) /\
  contadores_em_faixa (executa cfg_temp chan st (eventos_do_tique q)).
Proof.
  intros cfg_temp chan q st Hf Hr. unfold eventos_do_tique.
  rewrite executa_app.
  assert (H0 : em_fase (executa cfg_temp chan st
                          match tq_irq q with
                          | Some buf => [ev_irq_dma buf]
                          | None => []
                          end)
               /\ contadores_em_faixa
                    (executa cfg_temp chan st
                       match tq_irq q with
                       | Some buf => [ev_irq_dma buf]
                       | None => []
                       end)).
  { destruct (tq_irq q) as [buf|]; [|split; assumption].
    rewrite executa_um. apply fase_apos_tarefa_1; [reflexivity| |]; assumption. }
  destruct H0 as [Hf0 Hr0].
  set (s0 := executa cfg_temp chan st _) in *.
  change [ ev_tarefa_1 (tq_now q);
           ev_tarefa_2 (tq_ini2 q) (tq_fim2 q) (tq_r q);
           ev_tarefa_3 (tq_ini3 q) (tq_fim3 q);
           ev_tarefa_4 (tq_ini4 q) (tq_fim4 q); ev_tarefa_5 ]
    with ([ev_tarefa_1 (tq_now q)]
          ++ [ ev_tarefa_2 (tq_ini2 q) (tq_fim2 q) (tq_r q);
               ev_tarefa_3 (tq_ini3 q) (tq_fim3 q);
               ev_tarefa_4 (tq_ini4 q) (tq_fim4 q); ev_tarefa_5 ]).
  rewrite executa_app, executa_um.
  destruct (fase_apos_tarefa_1 cfg_temp chan s0 (ev_tarefa_1 (tq_now q))
              eq_refl Hf0 Hr0) as [Hf1 Hr1].
  apply fase_apos_jusante; assumption.
Qed.

(** X9. When the five callbacks run once per base tick in the order [main]
    registers their timers (the completion interrupt arriving at any tick),
    the four downstream throttles stay in phase from program start: after
    any number of ticks the four counters are equal and the four payloads
    have run the same number of times, so trend analysis, display, LED
    matrix and blinker always fire in the same ticks. *)
Theorem tarefas_em_fase : forall cfg_temp chan done qs,
  let st := executa cfg_temp chan (init done) (eventos_dos_tiques qs) in
  contador_3 st = contador_2 st /\
  contador_4 st = contador_2 st /\
  contador_5 st = contador_2 st /\
  execucoes_3 st = execucoes_2 st /\
  execucoes_4 st = execucoes_2 st /\
  execucoes_5 st = execucoes_2 st.
Proof.
  intros cfg_temp chan done qs st.
  assert (H : em_fase st /\ contadores_em_faixa st).
  { subst st.
    assert (H0 : em_fase (init done) /\ contadores_em_faixa (init done)).
    { split; [repeat split|]. unfold contadores_em_faixa. cbn. lia. }
    revert H0. generalize (init done).
    induction qs as [|q qs IH]; intros s H0; [exact H0|].
    unfold eventos_dos_tiques in *. cbn [flat_map].
    rewrite executa_app. apply IH.
    apply fase_apos_tique; tauto. }
  exact (proj1 H).
Qed.

(** *** The blinker *)

(** One invocation of [tarefa_5] with the gate open. *)
Lemma tarefa_5_uma : forall st,
  leitura_temp_concluida st = true ->
  leitura_temp_concluida (tarefa_5 st) = true /\
  media (tarefa_5 st) = media st /\
  ((contador_5 st + 1 <? 3) = true ->
   contador_5 (tarefa_5 st) = contador_5 st + 1 /\
   estado_5 (tarefa_5 st) = estado_5 st /\
   out (tarefa_5 st) = out st) /\
  ((contador_5 st + 1 <? 3) = false ->
   contador_5 (tarefa_5 st) = 0 /\
   estado_5 (tarefa_5 st)
   = (if F32.ltb (media st) F32.one then negb (estado_5 st)
      else estado_5 st) /\
   out (tarefa_5 st)
   = out st ++ (if F32.ltb (media st) F32.one
                then [ if estado_5 st then npClear else npSetAll_COR_BRANCA;
                       npWrite ]
                else [ npClear; npWrite ])).
Proof.
  intros st Hg. unfold tarefa_5. rewrite Hg. cbn [negb].
  destruct (contador_5 st + 1 <? 3);
    [|destruct (F32.ltb (media st) F32.one)];
    cbn [leitura_temp_concluida media contador_5 estado_5 out];
    repeat split; try discriminate; assumption.
Qed.

(** X10. Six invocations of [tarefa_5] with the gate open, starting from
    counter 0, run its payload twice (at the third and the sixth) and leave
    the counter at 0 and [media] as it was. If [media] is below [1.0f] the
    two runs alternate: one fills the matrix with white and the other
    clears it, whichever [estado] selects first, and [estado] is back at
    its initial value. Otherwise, and also when [media] is a NaN, both
    runs clear the matrix and [estado] is not touched. *)
Theorem tarefa_5_alterna : forall st,
  leitura_temp_concluida st = true ->
  contador_5 st = 0 ->
  let st' := tarefa_5_seis st in
  contador_5 st' = 0 /\
  media st' = media st /\
  estado_5 st' = estado_5 st /\
  out st'
  = out st
    ++ (if F32.ltb (media st) F32.one
        then [ if estado_5 st then npClear else npSetAll_COR_BRANCA; npWrite;
               if estado_5 st then npSetAll_COR_BRANCA else npClear; npWrite ]
        else [ npClear; npWrite; npClear; npWrite ]) /\
  F32.ltb S754_nan F32.one = false.
Proof.
  intros st Hg Hc st'. subst st'. unfold tarefa_5_seis.
  destruct (tarefa_5_uma st Hg) as (G1 & M1 & A1 & _).
  destruct (A1 ltac:(rewrite Hc; reflexivity)) as (C1 & E1 & O1).
  set (s1 := tarefa_5 st) in *.
  destruct (tarefa_5_uma s1 G1) as (G2 & M2 & A2 & _).
  destruct (A2 ltac:(rewrite C1, Hc; reflexivity)) as (C2 & E2 & O2).
  set (s2 := tarefa_5 s1) in *.
  destruct (tarefa_5_uma s2 G2) as (G3 & M3 & _ & B3).
  destruct (B3 ltac:(rewrite C2, C1, Hc; reflexivity)) as (C3 & E3 & O3).
  set (s3 := tarefa_5 s2) in *.
  destruct (tarefa_5_uma s3 G3) as (G4 & M4 & A4 & _).
  destruct (A4 ltac:(rewrite C3; reflexivity)) as (C4 & E4 & O4).
  set (s4 := tarefa_5 s3) in *.
  destruct (tarefa_5_uma s4 G4) as (G5 & M5 & A5 & _).
  destruct (A5 ltac:(rewrite C4, C3; reflexivity)) as (C5 & E5 & O5).
  set (s5 := tarefa_5 s4) in *.
  destruct (tarefa_5_uma s5 G5) as (G6 & M6 & _ & B6).
  destruct (B6 ltac:(rewrite C5, C4, C3; reflexivity)) as (C6 & E6 & O6).
  set (s6 := tarefa_5 s5) in *.
  split; [exact C6|].
  split; [rewrite M6, M5, M4, M3, M2, M1; reflexivity|].
  rewrite O6, E6, O5, E5, O4, E4, O3, E3, O2, E2, O1, E1.
  rewrite M5, M4, M3, M2, M1.
  destruct (F32.ltb (media st) F32.one); destruct (estado_5 st);
    rewrite <- ?app_assoc; repeat split.
Qed.

Lemma tarefa_5_alterna_witness :
  contador_5 (tarefa_5_seis (tarefa_1 0 0 1500000
                               (tarefa_1 0 0 1000000 Cenario.antes_do_fim)))
  = 0.
Proof.
  assert (Hg : leitura_temp_concluida
                 (tarefa_1 0 0 1500000
                    (tarefa_1 0 0 1000000 Cenario.antes_do_fim)) = true)
    by (lazy; reflexivity).
  assert (Hc : contador_5
                 (tarefa_1 0 0 1500000
                    (tarefa_1 0 0 1000000 Cenario.antes_do_fim)) = 0)
    by (lazy; reflexivity).
  exact (proj1 (tarefa_5_alterna _ Hg Hc)).
Defined.

End MainMais.

(** ** The readiness gate and the first published average *)

Module GateProps.
Import Main Complementos.

(** The invocation of [tarefa_1] that finds a finished cycle publishes it
    and opens the gate. *)
Lemma tarefa_1_publica : forall cfg_temp chan now st,
  ciclo_finalizado st = true ->
  media (tarefa_1 cfg_temp chan now st) = Tarefa1.tarefa1_termina (t1 st) /\
  leitura_temp_concluida (tarefa_1 cfg_temp chan now st) = true /\
  ciclo_finalizado (tarefa_1 cfg_temp chan now st) = false.
Proof.
  intros cfg_temp chan now st H. unfold tarefa_1. rewrite H.
  repeat split.
Qed.

(** Completed cycles are published one invocation later: the cycles the
    state machine has reported are the publications made plus the one
    still pending, if any. *)
Lemma ciclos_e_publicacoes : forall cfg_temp chan evs st,
  (ciclos_concluidos cfg_temp chan st evs
   + (if ciclo_finalizado st then 1 else 0))%nat
  = (leituras_publicadas cfg_temp chan st evs
     + (if ciclo_finalizado (executa cfg_temp chan st evs) then 1 else 0))%nat.
Proof.
  intros cfg_temp chan evs.
  induction evs as [|ev evs IH]; intros st; [reflexivity|].
  cbn [ciclos_concluidos leituras_publicadas].
  unfold executa in *. cbn [fold_left].
  specialize (IH (passo cfg_temp chan st ev)).
  destruct ev as [buf|now|ini fim r|ini fim|ini fim|].
  1, 3, 4, 5, 6:
    match type of IH with
    | context [passo _ _ _ ?e] =>
        rewrite (proj1 (MainProps.passo_outro cfg_temp chan st e eq_refl))
          in IH
    end; cbn [Nat.add]; exact IH.
  destruct (ciclo_finalizado st) eqn:Hc.
  - destruct (tarefa_1_publica cfg_temp chan now st Hc) as (_ & _ & Hc').
    cbn [passo] in *. rewrite Hc' in IH. lia.
  - destruct (MainMais.tarefa_1_chama cfg_temp chan now st Hc)
      as (_ & Hc' & _).
    change (Tarefa1.tick cfg_temp chan (t1 st) (Tarefa1.mkEntrada now None))
      with (Tarefa1.tarefa1_obter_media_temp cfg_temp chan now (t1 st))
      in Hc'.
    cbn [passo] in *. rewrite Hc' in IH.
    destruct (snd (Tarefa1.tarefa1_obter_media_temp cfg_temp chan now (t1 st)));
      lia.
Qed.

(** With the gate closed the downstream callbacks leave the state as it
    is. *)
Lemma jusante_fechada : forall cfg_temp chan ds st,
  leitura_temp_concluida st = false ->
  forallb e_jusante ds = true ->
  executa cfg_temp chan st ds = st.
Proof.
  intros cfg_temp chan ds st Hg.
  induction ds as [|ev ds IH]; intros H; [reflexivity|].
  cbn [forallb] in H. apply andb_prop in H as [Hev Hds].
  unfold executa in *. cbn [fold_left].
  destruct (MainProps.tarefas_com_leitura_pendente st Hg)
    as (T2 & T3 & T4 & T5).
  destruct ev as [buf|now|ini fim r|ini fim|ini fim|]; try discriminate Hev;
    cbn [passo]; rewrite ?T2, ?T3, ?T4, ?T5; exact (IH Hds).
Qed.

(** An invocation of [tarefa_1] that calls the state machine, after some
    downstream callbacks, with the gate closed. *)
Lemma chamada_fechada : forall cfg_temp chan ds now st,
  leitura_temp_concluida st = false ->
  ciclo_finalizado st = false ->
  forallb e_jusante ds = true ->
  let st' := executa cfg_temp chan st (ds ++ [ev_tarefa_1 now]) in
  leitura_temp_concluida st' = false /\
  t1 st' = fst (Tarefa1.tick cfg_temp chan (t1 st)
                  (Tarefa1.mkEntrada now None)) /\
  ciclo_finalizado st'
  = snd (Tarefa1.tick cfg_temp chan (t1 st) (Tarefa1.mkEntrada now None)).
Proof.
  intros cfg_temp chan ds now st Hg Hc Hds st'. subst st'.
  rewrite MainMais.executa_app, (jusante_fechada _ _ _ _ Hg Hds).
  rewrite MainMais.executa_um. cbn [passo].
  destruct (MainMais.tarefa_1_chama cfg_temp chan now st Hc)
    as (H1 & H2 & _ & H4 & _).
  rewrite H4. split; [exact Hg|]. split; assumption.
Qed.

(** A first cycle, up to the invocation that will publish it. *)
Lemma primeiro_ciclo_pendente :
  forall cfg_temp chan st a b c buf ds1 ds2 ds3 ds4,
  leitura_temp_concluida st = false ->
  ciclo_finalizado st = false ->
  Tarefa1.estado_t1 (t1 st) = Tarefa1.ESTADO_PARADO ->
  length buf = Z.to_nat Tarefa1.BLOCO_AMOSTRAS ->
  0 <= a -> a + Tarefa1.DURACAO_AMOSTRAGEM_US <= c -> c < 2 ^ 63 ->
  forallb e_jusante ds1 = true -> forallb e_jusante ds2 = true ->
  forallb e_jusante ds3 = true -> forallb e_jusante ds4 = true ->
  let s := executa cfg_temp chan st
             (primeiro_ciclo a b c buf ds1 ds2 ds3 ds4) in
  leitura_temp_concluida s = false /\
  ciclo_finalizado s = true /\
  Tarefa1.tarefa1_termina (t1 s) = media_do_bloco buf.
Proof.
  intros cfg_temp chan st a b c buf ds1 ds2 ds3 ds4
         Hg Hc He Hl Ha Hac Hc63 H1 H2 H3 H4 s.
  subst s. unfold primeiro_ciclo. rewrite !MainMais.executa_app.
  (* first invocation: the window opens *)
  destruct (chamada_fechada cfg_temp chan [] a st Hg Hc eq_refl)
    as (G1 & T1 & C1).
  cbn [app] in G1, T1, C1.
  set (s1 := executa cfg_temp chan st [ev_tarefa_1 a]) in *.
  rewrite (Tarefa1Mais.tick_parado _ _ _ _ He) in T1, C1.
  cbn [fst snd Tarefa1.antes Tarefa1.irq] in T1, C1.
  (* second invocation: the transfer starts *)
  destruct (chamada_fechada cfg_temp chan ds1 b s1 G1 C1 H1) as (G2 & T2 & C2).
  rewrite MainMais.executa_app in G2, T2, C2.
  set (s2 := executa cfg_temp chan (executa cfg_temp chan s1 ds1)
               [ev_tarefa_1 b]) in *.
  rewrite T1 in T2, C2.
  rewrite Tarefa1Mais.tick_iniciando in T2, C2 by reflexivity.
  cbn [fst snd Tarefa1.antes Tarefa1.irq Tarefa1.inicio_amostragem
       Tarefa1.soma_temp Tarefa1.total_amostras Tarefa1.media_temp
       Tarefa1.buffer_temp Tarefa1.hw] in T2, C2.
  (* the interrupt *)
  rewrite (jusante_fechada cfg_temp chan ds2 s2 G2 H2).
  set (s3 := executa cfg_temp chan s2 [ev_irq_dma buf]).
  assert (G3 : leitura_temp_concluida s3 = false) by exact G2.
  assert (C3 : ciclo_finalizado s3 = false) by exact C2.
  assert (T3 : t1 s3 = Tarefa1.irq_dma buf (t1 s2)) by reflexivity.
  (* third invocation: the block is accumulated and the cycle ends *)
  destruct (chamada_fechada cfg_temp chan ds3 c s3 G3 C3 H3) as (G4 & T4 & C4).
  rewrite MainMais.executa_app in G4, T4, C4.
  set (s4 := executa cfg_temp chan (executa cfg_temp chan s3 ds3)
               [ev_tarefa_1 c]) in *.
  rewrite T3, T2 in T4, C4.
  rewrite (Tarefa1Mais.aguardando_fim cfg_temp chan _ _ buf) in T4, C4
    by (try reflexivity; assumption).
  cbn [fst snd] in T4, C4.
  rewrite (jusante_fechada cfg_temp chan ds4 s4 G4 H4).
  split; [exact G4|]. split; [exact C4|].
  rewrite T4. unfold media_do_bloco.
  cbn [Tarefa1.tarefa1_termina Tarefa1.media_temp].
  rewrite (Tarefa1Props.soma_bloco_buffer _ _ Hl). reflexivity.
Qed.

Lemma historia_ultimo_aberto : forall cfg_temp chan evs st,
  leitura_temp_concluida st = true ->
  leitura_temp_concluida (executa cfg_temp chan st evs) = true.
Proof.
  intros cfg_temp chan evs st H.
  destruct (MainProps.gate_historia cfg_temp chan evs st) as (_ & _ & He).
  rewrite He, H. reflexivity.
Qed.

(** C4. [leitura_temp_concluida] starts false, and along any execution
    from program start it never goes from true to false and goes from
    false to true at most once: exactly once if an average has been
    published, however many are published afterwards. An average is
    published by the invocation of [tarefa_1] that follows the one in
    which the state machine reported the end of a cycle, and that
    invocation sets the gate. So the gate is still closed when the state
    machine has latched its first average, opens at the invocation that
    copies this average into [media], and stays open under every later
    callback and interrupt. *)
Theorem leitura_temp_concluida_abre_na_primeira_media :
  forall cfg_temp chan done,
  (forall evs,
     let h := map leitura_temp_concluida
                  (historia cfg_temp chan (init done) evs) in
     let n := leituras_publicadas cfg_temp chan (init done) evs in
     leitura_temp_concluida (init done) = false /\
     descidas h = O /\
     subidas h = Nat.min 1 n /\
     leitura_temp_concluida (executa cfg_temp chan (init done) evs)
     = (0 <? n)%nat /\
     (n + (if ciclo_finalizado (executa cfg_temp chan (init done) evs)
           then 1 else 0))%nat
     = ciclos_concluidos cfg_temp chan (init done) evs) /\
  (forall st ev, leitura_temp_concluida st = true ->
                 leitura_temp_concluida (passo cfg_temp chan st ev) = true) /\
  (forall st now,
     ciclo_finalizado st = true ->
     media (tarefa_1 cfg_temp chan now st) = Tarefa1.tarefa1_termina (t1 st) /\
     leitura_temp_concluida (tarefa_1 cfg_temp chan now st) = true /\
     ciclo_finalizado (tarefa_1 cfg_temp chan now st) = false) /\
  (forall st now,
     ciclo_finalizado st = false ->
     ciclo_finalizado (tarefa_1 cfg_temp chan now st)
     = snd (Tarefa1.tarefa1_obter_media_temp cfg_temp chan now (t1 st)) /\
     leitura_temp_concluida (tarefa_1 cfg_temp chan now st)
     = leitura_temp_concluida st /\
     media (tarefa_1 cfg_temp chan now st) = media st) /\
  (forall a b c d buf ds1 ds2 ds3 ds4 post,
     length buf = Z.to_nat Tarefa1.BLOCO_AMOSTRAS ->
     0 <= a -> a + Tarefa1.DURACAO_AMOSTRAGEM_US <= c -> c < 2 ^ 63 ->
     forallb e_jusante ds1 = true -> forallb e_jusante ds2 = true ->
     forallb e_jusante ds3 = true -> forallb e_jusante ds4 = true ->
     let pre := primeiro_ciclo a b c buf ds1 ds2 ds3 ds4 in
     let s := executa cfg_temp chan (init done) pre in
     let evs := pre ++ [ev_tarefa_1 d] ++ post in
     let h := map leitura_temp_concluida
                  (historia cfg_temp chan (init done) evs) in
     leitura_temp_concluida s = false /\
     ciclo_finalizado s = true /\
     Tarefa1.tarefa1_termina (t1 s) = media_do_bloco buf /\
     media (tarefa_1 cfg_temp chan d s) = media_do_bloco buf /\
     leitura_temp_concluida (tarefa_1 cfg_temp chan d s) = true /\
     leitura_temp_concluida (executa cfg_temp chan (init done) evs) = true /\
     subidas h = 1%nat /\
     descidas h = O).
Proof.
  intros cfg_temp chan done.
  split; [|split; [|split; [|split]]].
  - intros evs h n.
    destruct (MainProps.gate_desde_o_inicio cfg_temp chan done evs)
      as (H0 & Hd & Hs & He & _).
    split; [exact H0|]. split; [exact Hd|]. split; [exact Hs|].
    split; [exact He|].
    pose proof (ciclos_e_publicacoes cfg_temp chan evs (init done)) as Hc.
    cbn [init ciclo_finalizado] in Hc. subst n.
    rewrite <- Hc. cbn [ciclo_finalizado]. lia.
  - intros st ev. apply MainProps.passo_mantem_aberta.
  - intros st now. apply tarefa_1_publica.
  - intros st now Hc.
    destruct (MainMais.tarefa_1_chama cfg_temp chan now st Hc)
      as (_ & H2 & H3 & H4 & _).
    split; [exact H2|]. split; [exact H4|exact H3].
  - intros a b c d buf ds1 ds2 ds3 ds4 post Hl Ha Hac Hc63 H1 H2 H3 H4
           pre s evs h.
    destruct (primeiro_ciclo_pendente cfg_temp chan (init done)
                a b c buf ds1 ds2 ds3 ds4 eq_refl eq_refl eq_refl
                Hl Ha Hac Hc63 H1 H2 H3 H4) as (Gs & Cs & Ts).
    fold pre in Gs, Cs, Ts. fold s in Gs, Cs, Ts.
    destruct (tarefa_1_publica cfg_temp chan d s Cs) as (Hm & Hg & _).
    split; [exact Gs|]. split; [exact Cs|]. split; [exact Ts|].
    split; [rewrite Hm; exact Ts|]. split; [exact Hg|].
    assert (Hfim : leitura_temp_concluida
                     (executa cfg_temp chan (init done) evs) = true).
    { subst evs. rewrite MainMais.executa_app. fold s.
      rewrite MainMais.executa_app, MainMais.executa_um. cbn [passo].
      apply historia_ultimo_aberto. exact Hg. }
    split; [exact Hfim|].
    destruct (MainProps.gate_desde_o_inicio cfg_temp chan done evs)
      as (_ & Hd & Hs & He & _).
    fold h in Hd, Hs. rewrite Hfim in He.
    split; [|exact Hd]. rewrite Hs.
    destruct (leituras_publicadas cfg_temp chan (init done) evs);
      [discriminate He|reflexivity].
Qed.

Lemma leitura_temp_concluida_abre_na_primeira_media_witness :
  let pre := primeiro_ciclo 0 500000 1000000 Cenario.zeros
               [ev_tarefa_5] [] [ev_tarefa_2 1 2 0] [] in
  let evs := pre ++ [ev_tarefa_1 1500000]
             ++ [ ev_tarefa_1 2000000; ev_tarefa_1 2500000;
                  ev_irq_dma Cenario.zeros; ev_tarefa_1 3000000;
                  ev_tarefa_1 3500000 ] in
  leitura_temp_concluida (executa 0 0 (init false) pre) = false /\
  leitura_temp_concluida (executa 0 0 (init false) evs) = true /\
  subidas (map leitura_temp_concluida (historia 0 0 (init false) evs))
  = 1%nat.
Proof.
  intros pre evs.
  assert (Ha : 0 <= 0) by (lazy; discriminate).
  assert (Hac : 0 + Tarefa1.DURACAO_AMOSTRAGEM_US <= 1000000)
    by (lazy; discriminate).
  assert (Hc : 1000000 < 2 ^ 63) by (lazy; reflexivity).
  destruct (leitura_temp_concluida_abre_na_primeira_media 0 0 false)
    as (_ & _ & _ & _ & H).
  destruct (H 0 500000 1000000 1500000 Cenario.zeros
              [ev_tarefa_5] [] [ev_tarefa_2 1 2 0] []
              [ ev_tarefa_1 2000000; ev_tarefa_1 2500000;
                ev_irq_dma Cenario.zeros; ev_tarefa_1 3000000;
                ev_tarefa_1 3500000 ]
              eq_refl Ha Hac Hc eq_refl eq_refl eq_refl eq_refl)
    as (G0 & _ & _ & _ & _ & G1 & S1 & _).
  split; [exact G0|]. split; [exact G1|exact S1].
Defined.

End GateProps.
